(** * Visual Behavior Analysis API: request-to-response pipeline

    A shallow embedding of [api_keys.py] and [main.py]: the API-key
    manager, the image decoders, the two analysis endpoints and the
    response they build, followed by the properties of the pipeline.

    Conventions.
    - A Python [str] is a [string]; a character is a code point below 256.
    - A Python [bytes] is a [list byte].
    - A Python [float] is a binary64 number, a [spec_float] at precision
      53 and maximal exponent 1024.
    - [os.environ] and JSON objects are finite maps with string keys.
    - What is written to standard output, and every call to a
      collaborator (Pillow, the base64 codec, the behaviour analyzer), is
      recorded in order in the event trace of the world. *)

From Stdlib Require Import ZArith Lia Ascii String List SpecFloat.
From Stdlib.Strings Require Import Byte.
From stdpp Require Import base decidable option list strings gmap pretty.

Local Open Scope string_scope.
Local Open Scope list_scope.

(** ** Python built-ins on strings *)

Module PyStr.

(** [str.isspace] on one character: the code points below 256 that
    Python classifies as whitespace. *)
Definition isspace (c : ascii) : bool :=
  let n := nat_of_ascii c in
  ((9 <=? n) && (n <=? 13) || (28 <=? n) && (n <=? 32)
   || (n =? 133) || (n =? 160))%nat.

(** [bool(s)]: a string is truthy when it is not empty. *)
Definition truthy (s : string) : bool :=
  match s with
  | EmptyString => false
  | String _ _ => true
  end.

(** [s.lstrip()] *)
Fixpoint lstrip (s : string) : string :=
  match s with
  | EmptyString => EmptyString
  | String c s' => if isspace c then lstrip s' else s
  end.

(** [s.rstrip()] *)
Fixpoint rstrip (s : string) : string :=
  match s with
  | EmptyString => EmptyString
  | String c s' =>
      match rstrip s' with
      | EmptyString => if isspace c then EmptyString else String c EmptyString
      | r => String c r
      end
  end.

(** [s.strip()] *)
Definition strip (s : string) : string := lstrip (rstrip s).

(** [sep in s] for a one-character [sep]. *)
Fixpoint contains (sep : ascii) (s : string) : bool :=
  match s with
  | EmptyString => false
  | String c s' => if decide (c = sep) then true else contains sep s'
  end.

(** [s.split(sep)] for a one-character [sep]: every occurrence of [sep]
    ends a field; the result always has at least one field. *)
Fixpoint split (sep : ascii) (s : string) : list string :=
  match s with
  | EmptyString => [EmptyString]
  | String c s' =>
      if decide (c = sep) then EmptyString :: split sep s'
      else match split sep s' with
           | [] => [String c EmptyString]
           | w :: ws => String c w :: ws
           end
  end.

(** [s[:n]] *)
Fixpoint slice_to (n : nat) (s : string) : string :=
  match n, s with
  | S n', String c s' => String c (slice_to n' s')
  | _, _ => EmptyString
  end.

(** [sep.join(parts)] for a one-character [sep]. *)
Fixpoint join (sep : ascii) (parts : list string) : string :=
  match parts with
  | [] => EmptyString
  | [part] => part
  | part :: rest => part +:+ String sep (join sep rest)
  end.

(** [str(b)] for a [bool]. *)
Definition str_of_bool (b : bool) : string := if b then "True" else "False".

End PyStr.

(** ** api_keys.py *)

Module ApiKeys.

(** The attributes of a [ProductionAPIKeyManager] instance. *)
Record ProductionAPIKeyManager : Type := {
  primary_key : option string;
  fallback_keys : list string;
  valid_keys : list string
}.

(** [ProductionAPIKeyManager.__init__], reading [os.environ]; returns the
    lines printed and the initialised instance. *)
Definition init (environ : gmap string string)
  : list string * ProductionAPIKeyManager :=
  let primary_key := environ !! "VIDEO_ANALYZER_API_KEY" in
  let fallback_keys := default "" (environ !! "FALLBACK_API_KEYS") in
  let fallback_keys :=
    PyStr.strip <$>
      List.filter (fun key => PyStr.truthy (PyStr.strip key))
                  (PyStr.split "," fallback_keys) in
  let valid_keys :=
    match primary_key with
    | Some k => if PyStr.truthy k then [k] else []
    | None => []
    end ++ fallback_keys in
  (["API Key Manager initialized with " +:+ pretty (length valid_keys)
      +:+ " valid keys"],
   {| primary_key := primary_key;
      fallback_keys := fallback_keys;
      valid_keys := valid_keys |}).

(** [validate_key]; [None] is an absent candidate. Returns the lines
    printed and the verdict. *)
Definition validate_key (self : ProductionAPIKeyManager)
    (api_key : option string) : list string * bool :=
  match api_key with
  | None | Some EmptyString => (["[API Key] No API key provided"], false)
  | Some api_key =>
      let is_valid := bool_decide (api_key ∈ valid_keys self) in
      (["[API Key] Validating key: " +:+ PyStr.slice_to 20 api_key +:+ "...";
        "[API Key] Valid keys count: " +:+ pretty (length (valid_keys self))]
       ++ match valid_keys self with
          | [] => []
          | k0 :: _ =>
              ["[API Key] First valid key: " +:+ PyStr.slice_to 20 k0 +:+ "..."]
          end
       ++ ["[API Key] Validation result: " +:+ PyStr.str_of_bool is_valid],
       is_valid)
  end.

Definition get_primary_key (self : ProductionAPIKeyManager) : option string :=
  primary_key self.

Definition has_valid_keys (self : ProductionAPIKeyManager) : bool :=
  (0 <? length (valid_keys self))%nat.

Definition get_key_count (self : ProductionAPIKeyManager) : nat :=
  length (valid_keys self).

(** The valid set as the specification words it: the primary key together
    with the fallback keys, the empty string excluded. *)
Definition effective_valid_set (self : ProductionAPIKeyManager) : gset string :=
  (match primary_key self with Some k => {[ k ]} | None => ∅ end
   ∪ list_to_set (fallback_keys self)) ∖ {[ "" ]}.

(** [get_key_manager]; the argument [_key_manager] is the module-level
    variable of that name, [None] until the first call. Returns the
    lines printed, the manager, and the new value of the variable. *)
Definition get_key_manager (environ : gmap string string)
    (_key_manager : option ProductionAPIKeyManager)
  : list string * ProductionAPIKeyManager * option ProductionAPIKeyManager :=
  match _key_manager with
  | None =>
      let '(printed, created) := init environ in
      (printed, created, Some created)
  | Some existing => ([], existing, Some existing)
  end.

End ApiKeys.

(** ** Python floats *)

Module PyFloat.

Definition prec : Z := 53.
Definition emax : Z := 1024.

(** The float nearest to [num / den], ties to even, with sign [s]: the
    value of a decimal literal and of a decimal string read back. *)
Definition of_ratio (s : bool) (num den : positive) : spec_float :=
  SFdiv prec emax (S754_finite s num 0) (S754_finite false den 0).

(** The literal [0.0]. *)
Definition zero : spec_float := S754_zero false.

(** [x >= y] on floats; false when either is NaN. *)
Definition ge (x y : spec_float) : bool :=
  match SFcompare x y with
  | Some (Gt | Eq) => true
  | _ => false
  end.

(** The integer nearest to [num / den], ties to even, for [0 <= num]
    and [0 < den]. *)
Definition div_half_even (num den : Z) : Z :=
  let q := (num / den)%Z in
  let r := (num mod den)%Z in
  match (2 * r ?= den)%Z with
  | Lt => q
  | Gt => (q + 1)%Z
  | Eq => if Z.even q then q else (q + 1)%Z
  end.

(** [round(x, ndigits)] for a float [x] and [0 <= ndigits <= 323]:
    infinities and NaN round to themselves; a finite [x] is written in
    decimal with [ndigits] digits after the point, correctly rounded with
    ties to even, and the decimal string is read back as a float. *)
Definition round (x : spec_float) (ndigits : nat) : spec_float :=
  match x with
  | S754_finite s m e =>
      let scale := (10 ^ Z.of_nat ndigits)%Z in
      let k :=
        match e with
        | Zneg p => div_half_even (Zpos m * scale) (2 ^ Zpos p)
        | _ => (Zpos m * 2 ^ e * scale)%Z
        end in
      match k with
      | Zpos k => of_ratio s k (Z.to_pos scale)
      | _ => S754_zero s
      end
  | _ => x
  end.

(** The float nearest to [k / 10^ndigits], with sign [s], for [0 <= k]:
    what reading the decimal numeral of [k] with [ndigits] digits after
    the point gives. *)
Definition of_decimal (s : bool) (k : Z) (ndigits : nat) : spec_float :=
  match k with
  | Zpos p => of_ratio s p (Z.to_pos (10 ^ Z.of_nat ndigits))
  | _ => S754_zero s
  end.

(** [k] is the integer nearest to [m * 2^e * 10^ndigits], and of two
    nearest integers the even one. The distance is taken on exact
    values, as a comparison of integers: with [num / den] the fraction
    [m * 2^e * 10^ndigits], it is [|num / den - k| <= 1/2]. *)
Definition nearest_decimal (m : positive) (e : Z) (ndigits : nat) (k : Z)
  : Prop :=
  let num := (Zpos m * 10 ^ Z.of_nat ndigits * 2 ^ Z.max 0 e)%Z in
  let den := (2 ^ Z.max 0 (- e))%Z in
  (0 <= k)%Z
  ∧ (Z.abs (2 * num - 2 * k * den) <= den)%Z
  ∧ (Z.abs (2 * num - 2 * k * den) = den → Z.even k = true).

(** What "[x] rounded to [ndigits] decimals is [r]" means: infinities
    and NaN stay; of a finite [x], the magnitude is replaced by the
    nearest decimal with [ndigits] digits after the point, ties to the
    even last digit, and [r] is the float nearest to that decimal, with
    the sign of [x]. *)
Definition rounded_to (ndigits : nat) (x r : spec_float) : Prop :=
  match x with
  | S754_finite s m e =>
      ∃ k, nearest_decimal m e ndigits k ∧ r = of_decimal s k ndigits
  | _ => r = x
  end.

(** A float that binary64 can hold. *)
Definition valid (x : spec_float) : bool := valid_binary prec emax x.

(** Zero or a finite non-zero number, as opposed to NaN and the
    infinities. *)
Definition is_finite (x : spec_float) : bool :=
  match x with
  | S754_zero _ | S754_finite _ _ _ => true
  | S754_infinity _ | S754_nan => false
  end.

(** The exact value of a finite float, counted in units of [2^-1074],
    the smallest positive float. *)
Definition units (x : spec_float) : Z :=
  match x with
  | S754_finite s m e =>
      ((if s then Zneg m else Zpos m) * 2 ^ (e + 1074))%Z
  | _ => 0%Z
  end.

(** [bool(x)] for a float: zero is falsy, everything else (NaN too)
    truthy. *)
Definition truthy (x : spec_float) : bool :=
  match x with
  | S754_zero _ => false
  | _ => true
  end.

End PyFloat.

(** ** The base64 codec *)

Module Base64.

Definition byte_of_N (n : N) : byte :=
  default x00 (Byte.of_N (n mod 256)).

(** The value of a character of the base64 alphabet. *)
Definition sextet_of_char (c : ascii) : option N :=
  let n := N_of_ascii c in
  if ((65 <=? n) && (n <=? 90))%N then Some (n - 65)%N
  else if ((97 <=? n) && (n <=? 122))%N then Some (n - 71)%N
  else if ((48 <=? n) && (n <=? 57))%N then Some (n + 4)%N
  else if (n =? 43)%N then Some 62%N
  else if (n =? 47)%N then Some 63%N
  else None.

(** The base64 alphabet, and the character of a value below 64. *)
Definition alphabet : string :=
  "ABCDEFGHIJKLMNOPQRSTUVWXYZabcdefghijklmnopqrstuvwxyz0123456789+/".

Definition char_of_sextet (v : N) : ascii :=
  default "A"%char (String.get (N.to_nat v) alphabet).

(** [binascii.a2b_base64] without strict mode, as [base64.b64decode]
    calls it: characters outside the alphabet are skipped, a complete
    padding ends the input, and the count of alphabet characters must
    not leave a quad open. [quad_pos] is the position in the current
    quad, [leftchar] the bits of it not yet written, [pads] the padding
    characters seen since the last alphabet character, [out] the bytes
    written so far. *)
Fixpoint a2b_base64 (data : string) (quad_pos : nat) (leftchar : N)
    (pads : nat) (out : list byte) : string + list byte :=
  match data with
  | EmptyString =>
      match quad_pos with
      | 0%nat => inr out
      | 1%nat =>
          inl ("Invalid base64-encoded string: number of data characters ("
               +:+ pretty (length out / 3 * 4 + 1)%nat
               +:+ ") cannot be 1 more than a multiple of 4")
      | _ => inl "Incorrect padding"
      end
  | String c rest =>
      if decide (c = "="%char) then
        if (2 <=? quad_pos)%nat then
          if (4 <=? quad_pos + S pads)%nat then inr out
          else a2b_base64 rest quad_pos leftchar (S pads) out
        else a2b_base64 rest quad_pos leftchar pads out
      else
        match sextet_of_char c with
        | None => a2b_base64 rest quad_pos leftchar pads out
        | Some this_ch =>
            match quad_pos with
            | 0%nat => a2b_base64 rest 1 this_ch 0 out
            | 1%nat =>
                a2b_base64 rest 2 (N.land this_ch 15) 0
                  (out ++ [byte_of_N (N.lor (N.shiftl leftchar 2)
                                            (N.shiftr this_ch 4))])
            | 2%nat =>
                a2b_base64 rest 3 (N.land this_ch 3) 0
                  (out ++ [byte_of_N (N.lor (N.shiftl leftchar 4)
                                            (N.shiftr this_ch 2))])
            | _ =>
                a2b_base64 rest 0 0 0
                  (out ++ [byte_of_N (N.lor (N.shiftl leftchar 6) this_ch)])
            end
        end
  end.

(** Whether every character of a [str] is ASCII. *)
Fixpoint isascii (s : string) : bool :=
  match s with
  | EmptyString => true
  | String c rest => (N_of_ascii c <? 128)%N && isascii rest
  end.

(** [base64.b64decode(s)] for a [str] argument; [inl] carries the
    message of the exception raised. *)
Definition b64decode (s : string) : string + list byte :=
  if isascii s then a2b_base64 s 0 0 0 []
  else inl "string argument should contain only ASCII characters".

(** The four characters that encode a group of three bytes: the 24 bits
    of the group, six at a time. *)
Definition encode_group (a b c : N) : string :=
  String (char_of_sextet (a / 4))
    (String (char_of_sextet (a mod 4 * 16 + b / 16))
       (String (char_of_sextet (b mod 16 * 4 + c / 64))
          (String (char_of_sextet (c mod 64)) EmptyString)))%N.

(** Standard base64 with padding, the encoding a client applies to the
    image bytes. *)
Fixpoint b64encode (data : list byte) : string :=
  match data with
  | [] => EmptyString
  | [a] =>
      let g := encode_group (Byte.to_N a) 0 0 in
      PyStr.slice_to 2 g +:+ "=="
  | [a; b] =>
      let g := encode_group (Byte.to_N a) (Byte.to_N b) 0 in
      PyStr.slice_to 3 g +:+ "="
  | a :: b :: c :: rest =>
      encode_group (Byte.to_N a) (Byte.to_N b) (Byte.to_N c) +:+ b64encode rest
  end.

End Base64.

(** ** main.py: data *)

(** A decoded frame as [numpy] holds it: rows of pixels, three 8-bit
    channels per pixel. *)
Definition pixel : Type := byte * byte * byte.
Definition ndarray : Type := list (list pixel).

#[local] Set Warnings "-register-all".

(** A JSON value, as a request body carries it. *)
Inductive json : Type :=
  | JNull
  | JBool (b : bool)
  | JInt (n : Z)
  | JFloat (x : spec_float)
  | JStr (s : string)
  | JArr (items : list json)
  | JObj (members : list (string * json)).
#[local] Set Warnings "register-all".

(** [bool(v)] *)
Definition json_truthy (v : json) : bool :=
  match v with
  | JNull => false
  | JBool b => b
  | JInt n => negb (n =? 0)%Z
  | JFloat x => PyFloat.truthy x
  | JStr s => PyStr.truthy s
  | JArr items => match items with [] => false | _ => true end
  | JObj members => match members with [] => false | _ => true end
  end.

(** Modelled from the spec: the result dictionary of
    [ProductionBehaviorAnalyzer.process_frame]
    ([production_ready_analyzer.py] is not among the sources), with the
    fields and types of the specification's Analysis Result. [None] is a
    key that is absent from the dictionary; a metric may also be present
    with the value [None]. *)
Record AnalysisResult : Type := {
  res_frame_count : option Z;
  res_frame_confidence : option spec_float;
  res_metrics : option (gmap string (option spec_float));
  res_detection_results : option (gmap string Z);
  res_timestamp : option spec_float;
  res_warnings : option (list string)
}.

(** [class FrameAnalysisResponse(BaseModel)] *)
Record FrameAnalysisResponse : Type := {
  frame : Z;
  frame_confidence : spec_float;
  confidence_status : string;
  attention : option spec_float;
  head_movement : option spec_float;
  shoulder_tilt : option spec_float;
  hand_activity : option spec_float;
  hands_detected : Z;
  timestamp : spec_float;
  success : bool;
  warnings : list string
}.

(** [UploadFile]: the uploaded file with the bytes that [read] returns. *)
Record UploadFile : Type := {
  upload_filename : string;
  upload_content : list byte
}.

(** A raised exception: FastAPI's [HTTPException], or any other
    exception, kept as the text that [str] gives for it. *)
Inductive exn : Type :=
  | HTTPException (status_code : Z) (detail : string)
  | PyError (message : string).

(** The effects a request can have. *)
Inductive event : Type :=
  | Print (line : string)
  | DecodeImage (image_data : list byte)
  | DecodeBase64Image (base64_string : json)
  | B64Decode (text : string)
  | ProcessFrame (frame_in : ndarray).

(** ** Collaborators *)

(** Pillow, [numpy] and OpenCV, as [decode_image] uses them. [inl]
    carries the text of the exception raised. *)
Class ImageLibrary : Type := {
  pil_image : Type;
  Image_open : list byte → string + pil_image;
  image_mode : pil_image → string;
  image_convert : pil_image → string → string + pil_image;
  np_array : pil_image → string + ndarray;
  cv2_empty_error : string
}.

(** The behaviour analyzer: a stateful object whose [process_frame]
    returns a result dictionary or raises. *)
Class BehaviorAnalyzer : Type := {
  analyzer_state : Type;
  process_frame :
    analyzer_state → ndarray → (string + AnalysisResult) * analyzer_state
}.

(** What the Python runtime and the web framework decide: the text of
    [str(e)] for an [HTTPException], and the text of the exception that a
    truthy non-string [image] value raises inside [decode_base64_image]. *)
Class Runtime : Type := {
  http_exception_str : Z → string → string;
  non_str_image_error : json → string
}.

(** ** main.py: the request monad *)

Section Gateway.
Context `{IL : ImageLibrary} `{BA : BehaviorAnalyzer} `{RT : Runtime}.

(** The module-level [key_manager]. *)
Variable key_manager : ApiKeys.ProductionAPIKeyManager.

(** The state a request runs in: the module-level [analyzer], the
    reading of [time.time()], and the events so far, oldest first. *)
Record world : Type := {
  w_analyzer : analyzer_state;
  w_clock : spec_float;
  w_events : list event
}.

(** A computation that may raise. *)
Definition M (A : Type) : Type := world → (exn + A) * world.

Definition ret {A} (a : A) : M A := fun w => (inr a, w).

Definition raise {A} (e : exn) : M A := fun w => (inl e, w).

Definition bind {A B} (m : M A) (k : A → M B) : M B :=
  fun w =>
    match m w with
    | (inr a, w') => k a w'
    | (inl e, w') => (inl e, w')
    end.

(** [try: m  except Exception as e: handler e] *)
Definition try_except {A} (m : M A) (handler : exn → M A) : M A :=
  fun w =>
    match m w with
    | (inr a, w') => (inr a, w')
    | (inl e, w') => handler e w'
    end.

(** The world after the events [es] have happened. *)
Definition log_events (es : list event) (w : world) : world :=
  {| w_analyzer := w_analyzer w;
     w_clock := w_clock w;
     w_events := w_events w ++ es |}.

Definition emit (e : event) : M unit :=
  fun w => (inr tt, log_events [e] w).

Fixpoint emit_all (es : list event) : M unit :=
  match es with
  | [] => ret tt
  | e :: es' => bind (emit e) (fun _ => emit_all es')
  end.

(** The result of a library call that raises [inl msg] or returns. *)
Definition lift {A} (r : string + A) : M A :=
  match r with
  | inl msg => raise (PyError msg)
  | inr a => ret a
  end.

(** [time.time()] *)
Definition time_time : M spec_float := fun w => (inr (w_clock w), w).

(** [analyzer.process_frame(frame)] *)
Definition analyzer_process_frame (frame_in : ndarray) : M AnalysisResult :=
  fun w =>
    let '(r, st) := process_frame (w_analyzer w) frame_in in
    lift r {| w_analyzer := st;
              w_clock := w_clock w;
              w_events := w_events w ++ [ProcessFrame frame_in] |}.

(** [str(e)] *)
Definition str_exn (e : exn) : string :=
  match e with
  | HTTPException status_code detail => http_exception_str status_code detail
  | PyError message => message
  end.

Notation "x <- m ;; k" := (bind m (fun x => k))
  (at level 100, m at next level, right associativity).

(** ** main.py: the functions *)

(** [print] of the lines a call to the key manager wrote. *)
Definition printing {A} (r : list string * A) : M A :=
  _ <- emit_all (Print <$> r.1) ;; ret r.2.

(** [verify_api_key]: the dependency of both analysis endpoints; the
    argument is the value of the [X-API-Key] header, [None] when the
    header is absent. *)
Definition verify_api_key (api_key : option string) : M string :=
  match api_key with
  | None | Some EmptyString =>
      raise (HTTPException 401
               "API key required. Please provide X-API-Key header.")
  | Some k =>
      valid <- printing (ApiKeys.validate_key key_manager (Some k)) ;;
      if negb valid then
        raise (HTTPException 401 "Invalid or expired API key.")
      else ret k
  end.

(** [cv2.cvtColor(frame, cv2.COLOR_RGB2BGR)]: swaps the first and third
    channel of every pixel; OpenCV rejects an array without pixels. *)
Definition cvtColor_RGB2BGR (src : ndarray) : string + ndarray :=
  if forallb (fun row => match row with [] => true | _ => false end) src
  then inl cv2_empty_error
  else inr (List.map (List.map (fun '(r, g, b) => (b, g, r))) src).

(** [decode_image] *)
Definition decode_image (image_data : list byte) : M ndarray :=
  _ <- emit (DecodeImage image_data) ;;
  try_except
    (image <- lift (Image_open image_data) ;;
     image <- (if bool_decide (image_mode image ≠ "RGB")
               then lift (image_convert image "RGB")
               else ret image) ;;
     frame_bgr <- lift (np_array image) ;;
     frame_bgr <- lift (cvtColor_RGB2BGR frame_bgr) ;;
     ret frame_bgr)
    (fun e =>
       raise (HTTPException 400 ("Invalid image format: " +:+ str_exn e))).

(** [decode_base64_image]; the argument is whatever JSON value the
    request holds under ['image']. *)
Definition decode_base64_image (base64_string : json) : M ndarray :=
  _ <- emit (DecodeBase64Image base64_string) ;;
  try_except
    (match base64_string with
     | JStr base64_string =>
         base64_string <-
           (if PyStr.contains "," base64_string then
              match PyStr.split "," base64_string !! 1%nat with
              | Some field => ret field
              | None => raise (PyError "list index out of range")
              end
            else ret base64_string) ;;
         _ <- emit (B64Decode base64_string) ;;
         image_data <- lift (Base64.b64decode base64_string) ;;
         decode_image image_data
     | other => raise (PyError (non_str_image_error other))
     end)
    (fun e =>
       raise (HTTPException 400 ("Invalid base64 image: " +:+ str_exn e))).

(** The literal [0.3]. *)
Definition confidence_threshold : spec_float := PyFloat.of_ratio false 3 10.

(** [metrics.get(name)] *)
Definition metrics_get (metrics : gmap string (option spec_float))
    (name : string) : option spec_float :=
  match metrics !! name with
  | Some v => v
  | None => None
  end.

(** [round(metrics.get(name), ndigits)
      if metrics.get(name) is not None else None] *)
Definition rounded_metric (metrics : gmap string (option spec_float))
    (name : string) (ndigits : nat) : option spec_float :=
  match metrics_get metrics name with
  | Some v => Some (PyFloat.round v ndigits)
  | None => None
  end.

(** The statements from [# Extract metrics] to [# Build response], which
    the two endpoints share word for word. *)
Definition build_response (result : AnalysisResult) : M FrameAnalysisResponse :=
  let metrics := default ∅ (res_metrics result) in
  let frame_confidence :=
    default PyFloat.zero (res_frame_confidence result) in
  let confidence_status :=
    if PyFloat.ge frame_confidence confidence_threshold
    then "PASS" else "FAIL" in
  let hands_detected :=
    default 0%Z
      (default ∅ (res_detection_results result) !! "hands_detected_count") in
  now <- time_time ;;
  ret {| frame := default 0%Z (res_frame_count result);
         frame_confidence := PyFloat.round frame_confidence 3;
         confidence_status := confidence_status;
         attention := rounded_metric metrics "attention_percent" 1;
         head_movement := rounded_metric metrics "head_movement_normalized" 4;
         shoulder_tilt := rounded_metric metrics "shoulder_tilt_deg" 1;
         hand_activity := rounded_metric metrics "hand_activity_normalized" 4;
         hands_detected := hands_detected;
         timestamp := default now (res_timestamp result);
         success := true;
         warnings := default [] (res_warnings result) |}.

(** [analyze_frame]: the body of [POST /analyze/frame]. *)
Definition analyze_frame (file : UploadFile) (api_key : string)
  : M FrameAnalysisResponse :=
  try_except
    (image_data <- ret (upload_content file) ;;
     frame_bgr <- decode_image image_data ;;
     result <- analyzer_process_frame frame_bgr ;;
     build_response result)
    (fun e =>
       raise (HTTPException 500 ("Error processing frame: " +:+ str_exn e))).

(** [analyze_base64_frame]: the body of [POST /analyze/base64].
    [request.get('image')] is [None] for a missing key, which is also
    what a JSON [null] is read as. *)
Definition analyze_base64_frame (request : gmap string json) (api_key : string)
  : M FrameAnalysisResponse :=
  try_except
    (let base64_string := default JNull (request !! "image") in
     if negb (json_truthy base64_string) then
       raise (HTTPException 400 "Missing 'image' field in request")
     else
       frame_bgr <- decode_base64_image base64_string ;;
       result <- analyzer_process_frame frame_bgr ;;
       build_response result)
    (fun e =>
       match e with
       | HTTPException _ _ => raise e
       | PyError _ =>
           raise (HTTPException 500
                    ("Error processing frame: " +:+ str_exn e))
       end).

(** The framework's handling of a request to an endpoint declared with
    [Depends(verify_api_key)]: the dependency runs first, and the
    endpoint body runs only with the key it returned. *)
Definition post_analyze_frame (x_api_key : option string) (file : UploadFile)
  : M FrameAnalysisResponse :=
  api_key <- verify_api_key x_api_key ;;
  analyze_frame file api_key.

Definition post_analyze_base64 (x_api_key : option string)
    (request : gmap string json) : M FrameAnalysisResponse :=
  api_key <- verify_api_key x_api_key ;;
  analyze_base64_frame request api_key.

(** The status code of the HTTP reply: 200 for a returned response, the
    code of a raised [HTTPException], 500 for any other exception. *)
Definition status_of {A} (r : exn + A) : Z :=
  match r with
  | inr _ => 200%Z
  | inl (HTTPException status_code _) => status_code
  | inl (PyError _) => 500%Z
  end.

(** The dictionary that [get_api_key_status] returns. *)
Record ApiKeyStatus : Type := {
  keys_configured : bool;
  key_count : nat;
  primary_key_set : bool;
  message : string
}.

(** [get_api_key_status]: the body of [GET /api-key/status], which has
    no dependency on [verify_api_key]. *)
Definition get_api_key_status : ApiKeyStatus :=
  {| keys_configured := ApiKeys.has_valid_keys key_manager;
     key_count := ApiKeys.get_key_count key_manager;
     primary_key_set :=
       match ApiKeys.get_primary_key key_manager with
       | Some _ => true
       | None => false
       end;
     message :=
       if ApiKeys.has_valid_keys key_manager
       then "API keys are loaded from environment variables"
       else "No API keys configured in environment" |}.

(** ** Vocabulary of the properties *)

(** Two worlds that differ at most in the events recorded. *)
Definition same_state (w1 w2 : world) : Prop :=
  w_analyzer w1 = w_analyzer w2 ∧ w_clock w1 = w_clock w2.

(** A computation whose outcome, and whose effect on analyzer and
    clock, do not depend on the events recorded so far. *)
Definition events_blind {A} (m : M A) : Prop :=
  ∀ w1 w2, same_state w1 w2 →
    (m w1).1 = (m w2).1 ∧ same_state (m w1).2 (m w2).2.

(** The events a computation adds to the record. *)
Definition adds_events {A} (m : M A) (w : world) (es : list event) : Prop :=
  w_events (m w).2 = w_events w ++ es.

(** An event of decoding or analysis work, as opposed to a printed
    line. *)
Definition is_work (e : event) : bool :=
  match e with
  | Print _ => false
  | DecodeImage _ | DecodeBase64Image _ | B64Decode _ | ProcessFrame _ => true
  end.

(** The body of [POST /analyze/frame], started in [w], decoded the
    upload and the analyzer answered [result], leaving the world [w']. *)
Definition analyzed_upload (file : UploadFile) (w : world)
    (result : AnalysisResult) (w' : world) : Prop :=
  ∃ frame_bgr w1,
    decode_image (upload_content file) w = (inr frame_bgr, w1)
    ∧ analyzer_process_frame frame_bgr w1 = (inr result, w').

(** The same for the body of [POST /analyze/base64]. *)
Definition analyzed_base64 (request : gmap string json) (w : world)
    (result : AnalysisResult) (w' : world) : Prop :=
  ∃ image frame_bgr w1,
    request !! "image" = Some image
    ∧ json_truthy image = true
    ∧ decode_base64_image image w = (inr frame_bgr, w1)
    ∧ analyzer_process_frame frame_bgr w1 = (inr result, w').

(** The text that [decode_base64_image] hands to the base64 decoder for
    the string [text]. *)
Definition selected_field (text : string) : option string :=
  if PyStr.contains "," text then PyStr.split "," text !! 1%nat
  else Some text.

(** What the analyzer reported for the metric [name]: absent when the
    result has no metrics mapping, when the mapping has no such entry,
    and when the entry holds [None]. *)
Definition reported_metric (result : AnalysisResult) (name : string)
  : option spec_float :=
  m ← res_metrics result; v ← m !! name; v.

End Gateway.

Arguments world {_}.
Arguments M {_} A.

(** ** A sample deployment

    Concrete collaborators on which the model can be run: a small image
    library for an uncompressed format, an analyzer that answers every
    frame with a fixed result, and a runtime that words exceptions as
    current Starlette and CPython do. *)

Module Sample.

(** An image in the uncompressed format: a mode tag (["L"] for
    greyscale, ["R"] for RGB), a width byte, then the samples. *)
Record raw_image : Type := {
  raw_mode : string;
  raw_width : nat;
  raw_samples : list byte
}.

Definition open (data : list byte) : string + raw_image :=
  match data with
  | tag :: width :: samples =>
      let w := N.to_nat (Byte.to_N width) in
      if (w =? 0)%nat then inl "cannot identify image file"
      else if Byte.eqb tag "L"%byte then
        inr {| raw_mode := "L"; raw_width := w; raw_samples := samples |}
      else if Byte.eqb tag "R"%byte then
        inr {| raw_mode := "RGB"; raw_width := w; raw_samples := samples |}
      else inl "cannot identify image file"
  | _ => inl "cannot identify image file"
  end.

Definition convert (image : raw_image) (mode : string) : string + raw_image :=
  if bool_decide (mode = "RGB") then
    if bool_decide (raw_mode image = "L") then
      inr {| raw_mode := "RGB"; raw_width := raw_width image;
             raw_samples := flat_map (fun g => [g; g; g]) (raw_samples image) |}
    else inr image
  else inl "conversion not supported".

Fixpoint pixels (samples : list byte) : option (list pixel) :=
  match samples with
  | [] => Some []
  | r :: g :: b :: rest => cons (r, g, b) <$> pixels rest
  | _ => None
  end.

Fixpoint rows (fuel width : nat) (ps : list pixel) : list (list pixel) :=
  match fuel, ps with
  | S fuel', _ :: _ => take width ps :: rows fuel' width (drop width ps)
  | _, _ => []
  end.

Definition to_array (image : raw_image) : string + ndarray :=
  match pixels (raw_samples image) with
  | Some ps => inr (rows (length ps) (raw_width image) ps)
  | None => inl "image file is truncated"
  end.

Definition image_library : ImageLibrary :=
  {| pil_image := raw_image;
     Image_open := open;
     image_mode := raw_mode;
     image_convert := convert;
     np_array := to_array;
     cv2_empty_error := "(-215:Assertion failed) !_src.empty() in function 'cvtColor'" |}.

(** An analyzer that counts the frames it has seen and answers each with
    [outcome]. *)
Definition scripted_analyzer (outcome : string + AnalysisResult)
  : BehaviorAnalyzer :=
  {| analyzer_state := nat;
     process_frame := fun seen _ => (outcome, S seen) |}.

Definition runtime : Runtime :=
  {| http_exception_str := fun status_code detail =>
       pretty status_code +:+ ": " +:+ detail;
     non_str_image_error := fun _ => "argument of type 'int' is not iterable" |}.

(** The configuration of the specification's scenario. *)
Definition environ : gmap string string :=
  <["VIDEO_ANALYZER_API_KEY" := "abc123"]>
    (<["FALLBACK_API_KEYS" := "def456,ghi789"]> ∅).

Definition key_manager : ApiKeys.ProductionAPIKeyManager :=
  (ApiKeys.init environ).2.

(** A world that has seen no request, at clock reading 1000.0. *)
Definition fresh_world (outcome : string + AnalysisResult)
  : @world (scripted_analyzer outcome) :=
  {| w_analyzer := 0%nat : @analyzer_state (scripted_analyzer outcome);
     w_clock := PyFloat.of_ratio false 1000 1;
     w_events := [] |}.

(** A 2x1 RGB image in the uncompressed format, and bytes that are no
    image. *)
Definition rgb_image : list byte :=
  ["R"; x02; x0a; x14; x1e; x28; x32; x3c]%byte.

Definition not_an_image : list byte :=
  ["n"; "o"; "t"; " "; "a"; "n"; " "; "i"; "m"; "a"; "g"; "e"]%byte.

(** The analyzer result of the specification's scenario. *)
Definition low_confidence_result : AnalysisResult :=
  {| res_frame_count := None;
     res_frame_confidence := Some (PyFloat.of_ratio false 25 100);
     res_metrics := Some ∅;
     res_detection_results := None;
     res_timestamp := Some (PyFloat.of_ratio false 1000 1);
     res_warnings := None |}.

(** A result that reports neither a confidence nor any metric. *)
Definition bare_result : AnalysisResult :=
  {| res_frame_count := Some 7%Z;
     res_frame_confidence := None;
     res_metrics := None;
     res_detection_results := None;
     res_timestamp := None;
     res_warnings := None |}.

(** A result that reports everything: attention 87.456, head movement
    0.123456, shoulder tilt -3.14159, a hand activity entry that holds
    [None], confidence 0.87654. *)
Definition full_result : AnalysisResult :=
  {| res_frame_count := Some 12%Z;
     res_frame_confidence := Some (PyFloat.of_ratio false 87654 100000);
     res_metrics :=
       Some (<["attention_percent" := Some (PyFloat.of_ratio false 87456 1000)]>
               (<["head_movement_normalized" :=
                    Some (PyFloat.of_ratio false 123456 1000000)]>
                  (<["shoulder_tilt_deg" :=
                       Some (PyFloat.of_ratio true 314159 100000)]>
                     (<["hand_activity_normalized" := None]> ∅))));
     res_detection_results := Some (<["hands_detected_count" := 2%Z]> ∅);
     res_timestamp := Some (PyFloat.of_ratio false 1000 1);
     res_warnings := Some ["low light"] |}.

(** A result whose confidence 0.2996 lies just below the threshold. *)
Definition borderline_result : AnalysisResult :=
  {| res_frame_count := Some 8%Z;
     res_frame_confidence := Some (PyFloat.of_ratio false 2996 10000);
     res_metrics := None;
     res_detection_results := None;
     res_timestamp := None;
     res_warnings := None |}.

(** The two ways of sending [rgb_image]. *)
Definition upload : UploadFile :=
  {| upload_filename := "frame.raw"; upload_content := rgb_image |}.

Definition request : gmap string json :=
  {[ "image" := JStr ("data:image/raw;base64," +:+ Base64.b64encode rgb_image) ]}.

(** The worlds the two bodies leave behind when the analyzer answers
    [result]. *)
Definition world_after_upload (result : AnalysisResult)
  : @world (scripted_analyzer (inr result)) :=
  (@analyze_frame image_library (scripted_analyzer (inr result)) runtime
     upload "abc123" (fresh_world (inr result))).2.

Definition world_after_base64 (result : AnalysisResult)
  : @world (scripted_analyzer (inr result)) :=
  (@analyze_base64_frame image_library (scripted_analyzer (inr result)) runtime
     request "abc123" (fresh_world (inr result))).2.

End Sample.

(** * Properties *)

(** ** Strings *)

Section StringFacts.

Lemma append_cons (c : ascii) (s r : string) :
  String c s +:+ r = String c (s +:+ r).
Proof. reflexivity. Qed.

Lemma append_empty (r : string) : "" +:+ r = r.
Proof. reflexivity. Qed.

Lemma truthy_true (s : string) : PyStr.truthy s = true ↔ s ≠ "".
Proof. destruct s; simpl; split; intros; congruence. Qed.

Lemma lstrip_fixed (s : string) : PyStr.lstrip (PyStr.lstrip s) = PyStr.lstrip s.
Proof.
  induction s as [|c s IH]; simpl; [done|].
  destruct (PyStr.isspace c) eqn:Hc; [done|]. simpl. by rewrite Hc.
Qed.

Lemma rstrip_tail (c : ascii) (s : string) :
  PyStr.rstrip (String c s) = String c s → PyStr.rstrip s = s.
Proof.
  simpl. destruct (PyStr.rstrip s) as [|c' r] eqn:Hr.
  - destruct (PyStr.isspace c); intros [= <-]; done.
  - intros [= <-]. done.
Qed.

Lemma rstrip_lstrip_fixed (s : string) :
  PyStr.rstrip s = s → PyStr.rstrip (PyStr.lstrip s) = PyStr.lstrip s.
Proof.
  induction s as [|c s IH]; intros Hs; [done|].
  cbn [PyStr.lstrip]. destruct (PyStr.isspace c); [|done].
  apply IH. by eapply rstrip_tail.
Qed.

Lemma rstrip_fixed (s : string) : PyStr.rstrip (PyStr.rstrip s) = PyStr.rstrip s.
Proof.
  induction s as [|c s IH]; simpl; [done|].
  destruct (PyStr.rstrip s) as [|c' r] eqn:Hr.
  - destruct (PyStr.isspace c) eqn:Hc; simpl; by rewrite ?Hc.
  - cbn [PyStr.rstrip]. cbn [PyStr.rstrip] in IH. by rewrite IH.
Qed.

(** Stripping twice is stripping once. *)
Lemma strip_fixed (s : string) : PyStr.strip (PyStr.strip s) = PyStr.strip s.
Proof.
  unfold PyStr.strip.
  rewrite (rstrip_lstrip_fixed (PyStr.rstrip s)) by apply rstrip_fixed.
  apply lstrip_fixed.
Qed.

End StringFacts.

(** ** Floats *)

Section FloatFacts.

Import PyFloat.

Local Open Scope Z_scope.

Lemma digits2_pos_bounds (m : positive) :
  2 ^ (Zpos (digits2_pos m) - 1) <= Zpos m < 2 ^ Zpos (digits2_pos m).
Proof.
  induction m as [m IH|m IH|]; cbn [digits2_pos].
  - rewrite Pos2Z.inj_succ.
    replace (Z.succ (Zpos (digits2_pos m)) - 1) with (Zpos (digits2_pos m)) by lia.
    rewrite Z.pow_succ_r by lia.
    replace (Zpos (digits2_pos m)) with (Z.succ (Zpos (digits2_pos m) - 1)) at 1
      by lia.
    rewrite Z.pow_succ_r by lia. lia.
  - rewrite Pos2Z.inj_succ.
    replace (Z.succ (Zpos (digits2_pos m)) - 1) with (Zpos (digits2_pos m)) by lia.
    rewrite Z.pow_succ_r by lia.
    replace (Zpos (digits2_pos m)) with (Z.succ (Zpos (digits2_pos m) - 1)) at 1
      by lia.
    rewrite Z.pow_succ_r by lia. lia.
  - simpl. lia.
Qed.

(** What binary64 demands of a mantissa and its exponent: the exponent
    is at least -1074, the mantissa has at most 53 bits, and exactly 53
    above the smallest exponent. *)
Lemma bounded_mantissa (m : positive) (e : Z) :
  bounded prec emax m e = true →
  -1074 <= e ∧ Zpos m < 2 ^ 53 ∧ (-1074 < e → 2 ^ 52 <= Zpos m).
Proof.
  unfold bounded, canonical_mantissa, fexp, emin, prec, emax.
  rewrite andb_true_iff, Z.eqb_eq, Z.leb_le. intros [Hcan _].
  pose proof (digits2_pos_bounds m) as [Hlo Hhi].
  set (d := Zpos (digits2_pos m)) in *.
  assert (d <= 53 ∧ -1074 <= e ∧ (-1074 < e → d = 53)) as (Hd & He & Hnorm)
    by lia.
  split; [done|]. split.
  - eapply Z.lt_le_trans; [exact Hhi|]. apply Z.pow_le_mono_r; lia.
  - intros Hgt. rewrite (Hnorm Hgt) in Hlo. exact Hlo.
Qed.

(** A float with the smaller exponent is the smaller float. *)
Lemma units_lt_by_exponent (m1 m2 : positive) (e1 e2 : Z) :
  bounded prec emax m1 e1 = true → bounded prec emax m2 e2 = true →
  e1 < e2 →
  Zpos m1 * 2 ^ (e1 + 1074) < Zpos m2 * 2 ^ (e2 + 1074).
Proof.
  intros H1 H2 Hlt.
  apply bounded_mantissa in H1 as (He1 & Hm1 & _).
  apply bounded_mantissa in H2 as (He2 & _ & Hm2).
  specialize (Hm2 ltac:(lia)).
  replace (e2 + 1074) with ((e2 - e1 - 1) + 1 + (e1 + 1074)) by lia.
  rewrite (Z.pow_add_r 2 (e2 - e1 - 1 + 1) (e1 + 1074)) by lia.
  rewrite (Z.pow_add_r 2 (e2 - e1 - 1) 1) by lia.
  assert (0 < 2 ^ (e1 + 1074)) by (apply Z.pow_pos_nonneg; lia).
  assert (0 < 2 ^ (e2 - e1 - 1)) by (apply Z.pow_pos_nonneg; lia).
  change (2 ^ 1) with 2. change (2 ^ 53) with (2 * 2 ^ 52) in Hm1.
  generalize dependent (2 ^ 52). intros p Hm1 Hm2.
  generalize dependent (2 ^ (e1 + 1074)). intros a Ha.
  generalize dependent (2 ^ (e2 - e1 - 1)). intros b Hb.
  assert (Zpos m1 * a < 2 * p * a) by nia.
  assert (2 * p * a <= 2 * (Zpos m2 * a)) by nia.
  assert (0 < Zpos m2 * a) by nia.
  replace (Zpos m2 * (b * 2 * a)) with (b * (2 * (Zpos m2 * a))) by ring.
  nia.
Qed.

(** On floats of equal sign, the comparison of exponent and then
    mantissa is the comparison of values. *)
Lemma compare_magnitudes (m1 m2 : positive) (e1 e2 : Z) :
  bounded prec emax m1 e1 = true → bounded prec emax m2 e2 = true →
  match e1 ?= e2 with
  | Lt => Lt
  | Gt => Gt
  | Eq => Pos.compare_cont Eq m1 m2
  end = (Zpos m1 * 2 ^ (e1 + 1074) ?= Zpos m2 * 2 ^ (e2 + 1074)).
Proof.
  intros H1 H2. destruct (Z.compare_spec e1 e2) as [-> | Hlt | Hgt].
  - pose proof (bounded_mantissa _ _ H2) as (He & _ & _).
    rewrite <- Zmult_compare_compat_r
      by (apply Z.lt_gt, Z.pow_pos_nonneg; lia).
    reflexivity.
  - symmetry. apply Z.compare_lt_iff. by apply units_lt_by_exponent.
  - symmetry. apply Z.compare_gt_iff. by apply units_lt_by_exponent.
Qed.

(** [SFcompare] on valid finite floats compares their exact values. *)
Lemma compare_units (x y : spec_float) :
  valid x = true → valid y = true →
  is_finite x = true → is_finite y = true →
  SFcompare x y = Some (units x ?= units y).
Proof.
  unfold valid.
  destruct x as [sx|sx| |sx mx ex], y as [sy|sy| |sy my ey]; try done;
    cbn [valid_binary is_finite SFcompare units]; intros Hx Hy _ _.
  - destruct sy; f_equal; symmetry.
    + apply Z.compare_gt_iff.
      pose proof (bounded_mantissa _ _ Hy) as (He & _ & _).
      assert (0 < 2 ^ (ey + 1074)) by (apply Z.pow_pos_nonneg; lia). nia.
    + apply Z.compare_lt_iff.
      pose proof (bounded_mantissa _ _ Hy) as (He & _ & _).
      assert (0 < 2 ^ (ey + 1074)) by (apply Z.pow_pos_nonneg; lia). nia.
  - destruct sx; f_equal; symmetry.
    + apply Z.compare_lt_iff.
      pose proof (bounded_mantissa _ _ Hx) as (He & _ & _).
      assert (0 < 2 ^ (ex + 1074)) by (apply Z.pow_pos_nonneg; lia). nia.
    + apply Z.compare_gt_iff.
      pose proof (bounded_mantissa _ _ Hx) as (He & _ & _).
      assert (0 < 2 ^ (ex + 1074)) by (apply Z.pow_pos_nonneg; lia). nia.
  - pose proof (bounded_mantissa _ _ Hx) as (Hex & _ & _).
    pose proof (bounded_mantissa _ _ Hy) as (Hey & _ & _).
    assert (0 < 2 ^ (ex + 1074)) by (apply Z.pow_pos_nonneg; lia).
    assert (0 < 2 ^ (ey + 1074)) by (apply Z.pow_pos_nonneg; lia).
    destruct sx, sy; f_equal.
    + change (Zneg mx) with (- Zpos mx). change (Zneg my) with (- Zpos my).
      rewrite !Z.mul_opp_l, Z.compare_opp.
      rewrite <- (compare_magnitudes my mx ey ex) by done.
      rewrite (Z.compare_antisym ex ey).
      destruct (ex ?= ey); try done. simpl.
      change (CompOpp (mx ?= my)%positive = (my ?= mx)%positive).
      symmetry. apply Pos.compare_antisym.
    + symmetry. apply Z.compare_lt_iff. nia.
    + symmetry. apply Z.compare_gt_iff. nia.
    + by apply compare_magnitudes.
Qed.

(** [x >= y] on valid finite floats is the order of their exact
    values. *)
Lemma ge_units (x y : spec_float) :
  valid x = true → valid y = true →
  is_finite x = true → is_finite y = true →
  ge x y = true ↔ units y <= units x.
Proof.
  intros Hx Hy Hfx Hfy. unfold ge. rewrite compare_units by done.
  destruct (Z.compare_spec (units x) (units y)); split; intros; done || lia.
Qed.

End FloatFacts.

(** ** Rounding *)

Section RoundingFacts.

Import PyFloat.

Local Open Scope Z_scope.

(** [div_half_even] yields the nearest integer, the even one at a tie. *)
Lemma div_half_even_nearest (num den : Z) :
  0 <= num → 0 < den →
  0 <= div_half_even num den
  ∧ Z.abs (2 * num - 2 * div_half_even num den * den) <= den
  ∧ (Z.abs (2 * num - 2 * div_half_even num den * den) = den →
     Z.even (div_half_even num den) = true).
Proof.
  intros Hnum Hden. unfold div_half_even.
  pose proof (Z.div_mod num den ltac:(lia)) as Hdm.
  pose proof (Z.mod_pos_bound num den Hden) as Hr.
  pose proof (Z.div_pos num den Hnum Hden) as Hq.
  set (q := num / den) in *. set (r := num mod den) in *.
  destruct (Z.compare_spec (2 * r) den) as [Heq | Hlt | Hgt].
  - destruct (Z.even q) eqn:Heven.
    + split; [done|]. split; [|done].
      replace (2 * num - 2 * q * den) with (2 * r) by lia. lia.
    + split; [lia|].
      replace (2 * num - 2 * (q + 1) * den) with (2 * r - 2 * den) by lia.
      split; [lia|]. intros _.
      rewrite Z.even_add, Heven. done.
  - split; [done|].
    replace (2 * num - 2 * q * den) with (2 * r) by lia. split; lia.
  - split; [lia|].
    replace (2 * num - 2 * (q + 1) * den) with (2 * r - 2 * den) by lia.
    split; lia.
Qed.

(** [round] does round: what it returns for [x] and [ndigits] is [x]
    rounded to [ndigits] decimals. *)
Lemma round_rounded_to (x : spec_float) (ndigits : nat) :
  rounded_to ndigits x (round x ndigits).
Proof.
  destruct x as [s|s| |s m e]; try reflexivity.
  cbn [rounded_to round].
  assert (0 < 10 ^ Z.of_nat ndigits) as Hscale
    by (apply Z.pow_pos_nonneg; lia).
  destruct e as [|p|p].
  - exists (Zpos m * 2 ^ 0 * 10 ^ Z.of_nat ndigits). split; [|done].
    unfold nearest_decimal. change (Z.max 0 (- 0)) with 0.
    change (Z.max 0 0) with 0. change (2 ^ 0) with 1.
    generalize dependent (10 ^ Z.of_nat ndigits). intros scale Hscale.
    split; [nia|]. split; [lia|]. intros; lia.
  - exists (Zpos m * 2 ^ Zpos p * 10 ^ Z.of_nat ndigits). split; [|done].
    unfold nearest_decimal. change (Z.max 0 (- Zpos p)) with 0.
    change (Z.max 0 (Zpos p)) with (Zpos p). change (2 ^ 0) with 1.
    assert (0 < 2 ^ Zpos p) as Hpow by (apply Z.pow_pos_nonneg; lia).
    generalize dependent (2 ^ Zpos p). intros pow Hpow.
    generalize dependent (10 ^ Z.of_nat ndigits). intros scale Hscale.
    split; [nia|]. split; [lia|]. intros; lia.
  - exists (div_half_even (Zpos m * 10 ^ Z.of_nat ndigits) (2 ^ Zpos p)).
    split; [|done]. unfold nearest_decimal.
    change (Z.max 0 (Zneg p)) with 0.
    change (Z.max 0 (- Zneg p)) with (Zpos p). change (2 ^ 0) with 1.
    rewrite Z.mul_1_r.
    apply div_half_even_nearest; [nia|]. apply Z.pow_pos_nonneg; lia.
Qed.

(** The nearest integer, even at a tie, is one integer only. *)
Lemma nearest_decimal_unique (m : positive) (e : Z) (ndigits : nat)
    (k1 k2 : Z) :
  nearest_decimal m e ndigits k1 → nearest_decimal m e ndigits k2 → k1 = k2.
Proof.
  unfold nearest_decimal.
  assert (0 < 2 ^ Z.max 0 (- e)) as Hden by (apply Z.pow_pos_nonneg; lia).
  generalize dependent (2 ^ Z.max 0 (- e)).
  generalize (Zpos m * 10 ^ Z.of_nat ndigits * 2 ^ Z.max 0 e).
  intros num den Hden (_ & H1 & T1) (_ & H2 & T2).
  assert (k1 = k2 ∨ k1 = k2 + 1 ∨ k2 = k1 + 1) as [-> | [-> | ->]] by nia;
    [done| |].
  - assert (Z.abs (2 * num - 2 * (k2 + 1) * den) = den) as E1 by nia.
    assert (Z.abs (2 * num - 2 * k2 * den) = den) as E2 by nia.
    specialize (T1 E1). specialize (T2 E2).
    rewrite Z.even_add, T2 in T1. discriminate.
  - assert (Z.abs (2 * num - 2 * (k1 + 1) * den) = den) as E2 by nia.
    assert (Z.abs (2 * num - 2 * k1 * den) = den) as E1 by nia.
    specialize (T1 E1). specialize (T2 E2).
    rewrite Z.even_add, T1 in T2. discriminate.
Qed.

(** Rounding to [ndigits] decimals has one result, the one [round]
    returns. *)
Lemma rounded_to_round (x r : spec_float) (ndigits : nat) :
  rounded_to ndigits x r ↔ r = round x ndigits.
Proof.
  split; [|intros ->; apply round_rounded_to].
  pose proof (round_rounded_to x ndigits) as Hround.
  destruct x as [s|s| |s m e]; try (by cbn [rounded_to round]).
  cbn [rounded_to] in *. destruct Hround as (k' & Hk' & ->).
  intros (k & Hk & ->). by rewrite (nearest_decimal_unique _ _ _ _ _ Hk Hk').
Qed.

End RoundingFacts.

(** ** The base64 codec *)

Section Base64Facts.

Import Base64.

(** Division and remainder by constants are handed to [lia] as their
    defining equations. *)
#[local] Ltac Zify.zify_post_hook ::= Z.to_euclidean_division_equations.

(** A boolean check over all numbers below [n] decides a property of
    them. *)
Lemma below_forallb (n : nat) (P : N → bool) :
  forallb P (N.of_nat <$> seq 0 n) = true →
  ∀ x, (x < N.of_nat n)%N → P x = true.
Proof.
  intros Hall x Hx. rewrite forallb_forall in Hall. apply Hall.
  rewrite <- (N2Nat.id x). apply in_map, in_seq. lia.
Qed.

(** Every character of the alphabet is ASCII, is neither the padding
    character nor a comma, and has its own value in the decoder's
    table. *)
Lemma char_of_sextet_spec (v : N) :
  (v < 64)%N →
  sextet_of_char (char_of_sextet v) = Some v
  ∧ char_of_sextet v ≠ "="%char
  ∧ char_of_sextet v ≠ ","%char
  ∧ (N_of_ascii (char_of_sextet v) <? 128)%N = true.
Proof.
  intros Hv.
  pose (check := fun v : N =>
    match sextet_of_char (char_of_sextet v) with
    | Some v' => (v' =? v)%N
    | None => false
    end
    && negb (Ascii.eqb (char_of_sextet v) "=")
    && negb (Ascii.eqb (char_of_sextet v) ",")
    && (N_of_ascii (char_of_sextet v) <? 128)%N).
  assert (forallb check (N.of_nat <$> seq 0 64) = true) as Hall
    by (vm_compute; reflexivity).
  pose proof (below_forallb 64 check Hall v Hv) as Hc. unfold check in Hc.
  rewrite !andb_true_iff, !negb_true_iff, !Ascii.eqb_neq in Hc.
  destruct Hc as [[[Hs Hpad] Hcomma] Hascii].
  repeat split; try done.
  destruct (sextet_of_char (char_of_sextet v)) as [v'|]; [|done].
  by apply N.eqb_eq in Hs as ->.
Qed.

(** How the decoder's bit operations combine two values below 64. *)
Lemma decoder_bits (x y : N) :
  (x < 64)%N → (y < 64)%N →
  N.lor (N.shiftl x 2) (N.shiftr y 4) = (4 * x + y / 16)%N
  ∧ N.lor (N.shiftl (N.land x 15) 4) (N.shiftr y 2) = (16 * (x mod 16) + y / 4)%N
  ∧ N.lor (N.shiftl (N.land x 3) 6) y = (64 * (x mod 4) + y)%N.
Proof.
  intros Hx Hy.
  pose (check := fun x y : N =>
    (N.lor (N.shiftl x 2) (N.shiftr y 4) =? 4 * x + y / 16)%N
    && (N.lor (N.shiftl (N.land x 15) 4) (N.shiftr y 2)
        =? 16 * (x mod 16) + y / 4)%N
    && (N.lor (N.shiftl (N.land x 3) 6) y =? 64 * (x mod 4) + y)%N).
  assert (forallb (fun x => forallb (check x) (N.of_nat <$> seq 0 64))
            (N.of_nat <$> seq 0 64) = true) as Hall
    by (vm_compute; reflexivity).
  pose proof (below_forallb 64 _ Hall x Hx) as Hrow. simpl in Hrow.
  pose proof (below_forallb 64 _ Hrow y Hy) as Hc. unfold check in Hc.
  rewrite !andb_true_iff, !N.eqb_eq in Hc. tauto.
Qed.

Lemma byte_of_to_N (x : byte) : byte_of_N (Byte.to_N x) = x.
Proof.
  unfold byte_of_N. pose proof (Byte.to_N_bounded x).
  rewrite N.mod_small by lia. by rewrite Byte.of_to_N.
Qed.

(** One step of the decoder on a character of the alphabet. *)
Lemma a2b_base64_alphabet (v : N) (rest : string) (quad_pos : nat)
    (leftchar : N) (pads : nat) (out : list byte) :
  (v < 64)%N →
  a2b_base64 (String (char_of_sextet v) rest) quad_pos leftchar pads out =
    match quad_pos with
    | 0%nat => a2b_base64 rest 1 v 0 out
    | 1%nat =>
        a2b_base64 rest 2 (N.land v 15) 0
          (out ++ [byte_of_N (N.lor (N.shiftl leftchar 2) (N.shiftr v 4))])
    | 2%nat =>
        a2b_base64 rest 3 (N.land v 3) 0
          (out ++ [byte_of_N (N.lor (N.shiftl leftchar 4) (N.shiftr v 2))])
    | _ =>
        a2b_base64 rest 0 0 0
          (out ++ [byte_of_N (N.lor (N.shiftl leftchar 6) v)])
    end.
Proof.
  intros Hv. destruct (char_of_sextet_spec v Hv) as (Hs & Hpad & _ & _).
  cbn [a2b_base64]. rewrite decide_False by done. by rewrite Hs.
Qed.

(** The decoder reads a group of four characters back as the three
    bytes they encode. *)
Lemma a2b_base64_group_values (x y z : N) (rest : string) (leftchar : N)
    (pads : nat) (out : list byte) :
  (x <= 255)%N → (y <= 255)%N → (z <= 255)%N →
  a2b_base64 (encode_group x y z +:+ rest) 0 leftchar pads out =
  a2b_base64 rest 0 0 0 (out ++ [byte_of_N x; byte_of_N y; byte_of_N z]).
Proof.
  intros Hx Hy Hz.
  assert (x / 4 < 64 ∧ x mod 4 * 16 + y / 16 < 64
          ∧ y mod 16 * 4 + z / 64 < 64 ∧ z mod 64 < 64)%N
    as (H0 & H1 & H2 & H3) by lia.
  unfold encode_group. rewrite !append_cons, append_empty.
  rewrite (a2b_base64_alphabet _ _ 0) by done.
  rewrite (a2b_base64_alphabet _ _ 1) by done.
  rewrite (a2b_base64_alphabet _ _ 2) by done.
  rewrite (a2b_base64_alphabet _ _ 3) by done.
  destruct (decoder_bits (x / 4) (x mod 4 * 16 + y / 16) H0 H1) as (-> & _ & _).
  destruct (decoder_bits (x mod 4 * 16 + y / 16) (y mod 16 * 4 + z / 64) H1 H2)
    as (_ & -> & _).
  destruct (decoder_bits (y mod 16 * 4 + z / 64) (z mod 64) H2 H3)
    as (_ & _ & ->).
  replace (4 * (x / 4) + (x mod 4 * 16 + y / 16) / 16)%N with x by lia.
  replace (16 * ((x mod 4 * 16 + y / 16) mod 16) + (y mod 16 * 4 + z / 64) / 4)%N
    with y by lia.
  replace (64 * ((y mod 16 * 4 + z / 64) mod 4) + z mod 64)%N with z by lia.
  by rewrite <- !app_assoc.
Qed.

Lemma a2b_base64_group (a b c : byte) (rest : string) (leftchar : N)
    (pads : nat) (out : list byte) :
  a2b_base64 (encode_group (Byte.to_N a) (Byte.to_N b) (Byte.to_N c) +:+ rest)
    0 leftchar pads out =
  a2b_base64 rest 0 0 0 (out ++ [a; b; c]).
Proof.
  rewrite a2b_base64_group_values by apply Byte.to_N_bounded.
  by rewrite !byte_of_to_N.
Qed.

(** One step of the decoder on the padding character. *)
Lemma a2b_base64_pad (rest : string) (quad_pos : nat) (leftchar : N)
    (pads : nat) (out : list byte) :
  a2b_base64 (String "=" rest) quad_pos leftchar pads out =
    if (2 <=? quad_pos)%nat then
      if (4 <=? quad_pos + S pads)%nat then inr out
      else a2b_base64 rest quad_pos leftchar (S pads) out
    else a2b_base64 rest quad_pos leftchar pads out.
Proof. reflexivity. Qed.

(** Induction over a list three elements at a time. *)
Lemma list_ind_by_three {A} (P : list A → Prop) :
  P [] → (∀ a, P [a]) → (∀ a b, P [a; b]) →
  (∀ a b c l, P l → P (a :: b :: c :: l)) →
  ∀ l, P l.
Proof.
  intros H0 H1 H2 H3.
  refine (fix go l :=
            match l with
            | [] => H0
            | [a] => H1 a
            | [a; b] => H2 a b
            | a :: b :: c :: l' => H3 a b c l' (go l')
            end).
Qed.

(** The decoder, started between two groups, reads an encoding back. *)
Lemma a2b_base64_b64encode (data out : list byte) :
  a2b_base64 (b64encode data) 0 0 0 out = inr (out ++ data).
Proof.
  revert out. induction data as [|a|a b|a b c data IH] using list_ind_by_three;
    intros out.
  - simpl. by rewrite app_nil_r.
  - pose proof (Byte.to_N_bounded a) as Ha.
    assert (Byte.to_N a / 4 < 64 ∧ Byte.to_N a mod 4 * 16 + 0 / 16 < 64)%N
      as [H0 H1] by lia.
    cbn [b64encode encode_group PyStr.slice_to].
    rewrite !append_cons, append_empty.
    rewrite (a2b_base64_alphabet _ _ 0) by done.
    rewrite (a2b_base64_alphabet _ _ 1) by done.
    rewrite !a2b_base64_pad. simpl.
    destruct (decoder_bits _ _ H0 H1) as (-> & _ & _).
    replace (4 * (Byte.to_N a / 4) + (Byte.to_N a mod 4 * 16 + 0 / 16) / 16)%N
      with (Byte.to_N a) by lia.
    by rewrite byte_of_to_N.
  - pose proof (Byte.to_N_bounded a) as Ha.
    pose proof (Byte.to_N_bounded b) as Hb.
    assert (Byte.to_N a / 4 < 64
            ∧ Byte.to_N a mod 4 * 16 + Byte.to_N b / 16 < 64
            ∧ Byte.to_N b mod 16 * 4 + 0 / 64 < 64)%N
      as (H0 & H1 & H2) by lia.
    cbn [b64encode encode_group PyStr.slice_to].
    rewrite !append_cons, append_empty.
    rewrite (a2b_base64_alphabet _ _ 0) by done.
    rewrite (a2b_base64_alphabet _ _ 1) by done.
    rewrite (a2b_base64_alphabet _ _ 2) by done.
    rewrite !a2b_base64_pad. simpl.
    destruct (decoder_bits _ _ H0 H1) as (-> & _ & _).
    destruct (decoder_bits _ _ H1 H2) as (_ & -> & _).
    replace (4 * (Byte.to_N a / 4)
             + (Byte.to_N a mod 4 * 16 + Byte.to_N b / 16) / 16)%N
      with (Byte.to_N a) by lia.
    replace (16 * ((Byte.to_N a mod 4 * 16 + Byte.to_N b / 16) mod 16)
             + (Byte.to_N b mod 16 * 4 + 0 / 64) / 4)%N
      with (Byte.to_N b) by lia.
    rewrite !byte_of_to_N. by rewrite <- app_assoc.
  - cbn [b64encode]. rewrite a2b_base64_group, IH. by rewrite <- app_assoc.
Qed.

Lemma isascii_append (s r : string) :
  isascii (s +:+ r) = isascii s && isascii r.
Proof.
  induction s as [|c s IH]; [done|].
  rewrite append_cons. cbn [isascii]. by rewrite IH, andb_assoc.
Qed.

Lemma contains_append (sep : ascii) (s r : string) :
  PyStr.contains sep (s +:+ r) = PyStr.contains sep s || PyStr.contains sep r.
Proof.
  induction s as [|c s IH]; [done|].
  rewrite append_cons. cbn [PyStr.contains]. by destruct (decide (c = sep)).
Qed.

(** A group is written in ASCII and without comma. *)
Lemma encode_group_plain (x y z : N) :
  (x <= 255)%N → (y <= 255)%N → (z <= 255)%N →
  isascii (encode_group x y z) = true
  ∧ PyStr.contains "," (encode_group x y z) = false.
Proof.
  intros Hx Hy Hz.
  assert (x / 4 < 64 ∧ x mod 4 * 16 + y / 16 < 64
          ∧ y mod 16 * 4 + z / 64 < 64 ∧ z mod 64 < 64)%N
    as (H0 & H1 & H2 & H3) by lia.
  destruct (char_of_sextet_spec _ H0) as (_ & _ & Hc0 & Ha0).
  destruct (char_of_sextet_spec _ H1) as (_ & _ & Hc1 & Ha1).
  destruct (char_of_sextet_spec _ H2) as (_ & _ & Hc2 & Ha2).
  destruct (char_of_sextet_spec _ H3) as (_ & _ & Hc3 & Ha3).
  unfold encode_group. cbn [isascii PyStr.contains].
  rewrite Ha0, Ha1, Ha2, Ha3. by rewrite !decide_False by done.
Qed.

Lemma slice_to_plain (n : nat) (s : string) :
  isascii s = true → PyStr.contains "," s = false →
  isascii (PyStr.slice_to n s) = true
  ∧ PyStr.contains "," (PyStr.slice_to n s) = false.
Proof.
  revert n. induction s as [|c s IH]; intros [|n]; try done.
  cbn [isascii PyStr.contains PyStr.slice_to].
  destruct (decide (c = ","%char)); [done|].
  rewrite andb_true_iff. intros [Hc Hs] Hcomma.
  destruct (IH n Hs Hcomma) as [-> ->]. by rewrite Hc.
Qed.

(** An encoding is written in ASCII and without comma. *)
Lemma b64encode_plain (data : list byte) :
  isascii (b64encode data) = true
  ∧ PyStr.contains "," (b64encode data) = false.
Proof.
  induction data as [|a|a b|a b c data [IHa IHc]] using list_ind_by_three.
  - done.
  - cbn [b64encode]. rewrite isascii_append, contains_append.
    destruct (encode_group_plain (Byte.to_N a) 0 0) as [Ha Hc];
      [apply Byte.to_N_bounded|done|done|].
    by destruct (slice_to_plain 2 _ Ha Hc) as [-> ->].
  - cbn [b64encode]. rewrite isascii_append, contains_append.
    destruct (encode_group_plain (Byte.to_N a) (Byte.to_N b) 0) as [Ha Hc];
      [apply Byte.to_N_bounded|apply Byte.to_N_bounded|done|].
    by destruct (slice_to_plain 3 _ Ha Hc) as [-> ->].
  - cbn [b64encode]. rewrite isascii_append, contains_append, IHa, IHc.
    by destruct (encode_group_plain (Byte.to_N a) (Byte.to_N b) (Byte.to_N c))
      as [-> ->]; try apply Byte.to_N_bounded.
Qed.

(** [base64.b64decode] reads back what the client encoded. *)
Theorem b64decode_b64encode (data : list byte) :
  b64decode (b64encode data) = inr data.
Proof.
  unfold b64decode. destruct (b64encode_plain data) as [-> _].
  apply a2b_base64_b64encode.
Qed.

End Base64Facts.

(** ** The key manager *)

Section KeyStoreFacts.

Import ApiKeys.

Lemma validate_key_verdict (self : ProductionAPIKeyManager) (c : string) :
  (validate_key self (Some c)).2 = true ↔ c ≠ "" ∧ c ∈ valid_keys self.
Proof.
  destruct c as [|a c]; simpl.
  - split; [done|]. by intros [? _].
  - rewrite bool_decide_eq_true. split; [done|]. by intros [_ ?].
Qed.

Lemma elem_of_init_fallback_keys (environ : gmap string string) (k : string) :
  k ∈ fallback_keys (init environ).2 ↔
  ∃ field, field ∈ PyStr.split "," (default "" (environ !! "FALLBACK_API_KEYS"))
           ∧ PyStr.strip field ≠ "" ∧ k = PyStr.strip field.
Proof.
  cbn [init snd fallback_keys]. rewrite list_elem_of_fmap. split.
  - intros (field & -> & Hin). exists field.
    apply list_elem_of_In, filter_In in Hin as [Hin Ht].
    split; [by apply list_elem_of_In|]. split; [by apply truthy_true|done].
  - intros (field & Hin & Hne & ->). exists field. split; [done|].
    apply list_elem_of_In, filter_In. split; [by apply list_elem_of_In|].
    by apply truthy_true.
Qed.

Lemma elem_of_init_valid_keys (environ : gmap string string) (k : string) :
  k ∈ valid_keys (init environ).2 ↔
  (environ !! "VIDEO_ANALYZER_API_KEY" = Some k ∧ k ≠ "")
  ∨ k ∈ fallback_keys (init environ).2.
Proof.
  cbn [init snd valid_keys fallback_keys]. rewrite elem_of_app.
  apply or_iff_compat_r.
  destruct (environ !! "VIDEO_ANALYZER_API_KEY") as [p|]; simpl.
  - destruct p as [|a p]; simpl.
    + rewrite elem_of_nil. split; [done|]. by intros [[= <-] ?].
    + rewrite list_elem_of_singleton. split.
      * intros ->. done.
      * by intros [[= ->] _].
  - rewrite elem_of_nil. split; [done|]. by intros [? _].
Qed.

Lemma init_fallback_keys_stripped (environ : gmap string string) (k : string) :
  k ∈ fallback_keys (init environ).2 → PyStr.strip k = k ∧ k ≠ "".
Proof.
  rewrite elem_of_init_fallback_keys. intros (field & _ & Hne & ->).
  split; [apply strip_fixed|done].
Qed.

(** C4. [validate_key] answers [False] for an absent or empty candidate
    whatever the manager holds, printing only that no key was provided;
    and on a manager built by [__init__] it answers [True] for a
    candidate exactly when the candidate belongs to the effective valid
    set: the primary key and the fallback keys, the empty string
    excluded. *)
Theorem validate_key_effective_valid_set (environ : gmap string string) :
  (∀ self : ProductionAPIKeyManager,
      validate_key self None = (["[API Key] No API key provided"], false)
      ∧ validate_key self (Some "") = (["[API Key] No API key provided"], false))
  ∧ (∀ candidate : string,
        (validate_key (init environ).2 (Some candidate)).2 = true
        ↔ candidate ∈ effective_valid_set (init environ).2).
Proof.
  split; [done|]. intros c.
  rewrite validate_key_verdict, elem_of_init_valid_keys.
  unfold effective_valid_set.
  rewrite elem_of_difference, elem_of_union, elem_of_list_to_set,
    not_elem_of_singleton.
  assert (c ∈ match primary_key (init environ).2 with
              | Some k => ({[ k ]} : gset string) | None => ∅ end
          ↔ environ !! "VIDEO_ANALYZER_API_KEY" = Some c) as ->.
  { cbn [init snd primary_key].
    destruct (environ !! "VIDEO_ANALYZER_API_KEY") as [p|].
    - rewrite elem_of_singleton. split; [by intros ->|by intros [= ->]].
    - rewrite elem_of_empty. done. }
  split.
  - intros [Hne [[Hp _]|Hf]]; (split; [|done]); [by left|by right].
  - intros [[Hp|Hf] Hne]; (split; [done|]); [by left|by right].
Qed.

(** C10. Every comma-separated field of the fallback configuration
    enters the valid set stripped of surrounding whitespace: the stripped
    field validates, and the field as configured does not when stripping
    changes it (unless it is the primary key). The primary key is
    stored verbatim: it validates as configured, and nothing else does
    that is not a fallback key. *)
Theorem fallback_keys_stripped_primary_verbatim (environ : gmap string string) :
  (∀ field : string,
      field ∈ PyStr.split "," (default "" (environ !! "FALLBACK_API_KEYS")) →
      PyStr.strip field ≠ "" →
      (validate_key (init environ).2 (Some (PyStr.strip field))).2 = true
      ∧ (PyStr.strip field ≠ field →
         environ !! "VIDEO_ANALYZER_API_KEY" ≠ Some field →
         (validate_key (init environ).2 (Some field)).2 = false))
  ∧ (∀ primary : string,
        environ !! "VIDEO_ANALYZER_API_KEY" = Some primary →
        primary ≠ "" →
        (validate_key (init environ).2 (Some primary)).2 = true
        ∧ (∀ candidate : string,
              candidate ≠ primary →
              candidate ∉ fallback_keys (init environ).2 →
              (validate_key (init environ).2 (Some candidate)).2 = false)).
Proof.
  split.
  - intros field Hin Hne. split.
    + apply validate_key_verdict. split; [done|].
      apply elem_of_init_valid_keys. right.
      apply elem_of_init_fallback_keys. eauto.
    + intros Hchg Hprim. apply not_true_is_false.
      rewrite validate_key_verdict, elem_of_init_valid_keys.
      intros [_ [[Hp _]|Hf]]; [done|].
      apply init_fallback_keys_stripped in Hf as [Hs _]. done.
  - intros p Hp Hne. split.
    + apply validate_key_verdict. split; [done|].
      apply elem_of_init_valid_keys. by left.
    + intros c Hc Hnf. apply not_true_is_false.
      rewrite validate_key_verdict, elem_of_init_valid_keys.
      intros [_ [[Hp' _]|Hf]]; [congruence|done].
Qed.

(** The configurations of C10: [" k "] as the only fallback key, and
    [" k "] as the primary key. *)
Lemma fallback_keys_stripped_primary_verbatim_witness :
  (let environ : gmap string string := <["FALLBACK_API_KEYS" := " k "]> ∅ in
   (validate_key (init environ).2 (Some "k")).2 = true
   ∧ (validate_key (init environ).2 (Some " k ")).2 = false)
  ∧ (let environ : gmap string string :=
       <["VIDEO_ANALYZER_API_KEY" := " k "]> ∅ in
     (validate_key (init environ).2 (Some " k ")).2 = true
     ∧ (validate_key (init environ).2 (Some "k")).2 = false).
Proof.
  split; intros environ.
  - destruct (proj1 (fallback_keys_stripped_primary_verbatim environ) " k ")
      as [Hk Hraw].
    + vm_compute. apply list_elem_of_here.
    + vm_compute. discriminate.
    + split; [exact Hk|]. apply Hraw; vm_compute; discriminate.
  - destruct (proj2 (fallback_keys_stripped_primary_verbatim environ) " k ")
      as [Hraw Hother].
    + vm_compute. reflexivity.
    + discriminate.
    + split; [exact Hraw|]. apply Hother; [discriminate|].
      vm_compute. apply not_elem_of_nil.
Defined.

End KeyStoreFacts.

(** ** The gateway *)

Section GatewayFacts.
Context `{IL : ImageLibrary} `{BA : BehaviorAnalyzer} `{RT : Runtime}.
Variable key_manager : ApiKeys.ProductionAPIKeyManager.

Implicit Types (w : world) (es : list event).

Lemma log_events_nil w : log_events [] w = w.
Proof. destruct w. unfold log_events. simpl. by rewrite app_nil_r. Qed.

Lemma log_events_app es1 es2 w :
  log_events es2 (log_events es1 w) = log_events (es1 ++ es2) w.
Proof. unfold log_events. simpl. by rewrite app_assoc. Qed.

Lemma emit_all_run es w : emit_all es w = (inr tt, log_events es w).
Proof.
  revert w. induction es as [|e es IH]; intros w; simpl.
  - unfold ret. by rewrite log_events_nil.
  - unfold bind, emit. rewrite IH. by rewrite log_events_app.
Qed.

Lemma printing_run {A} (r : list string * A) w :
  printing r w = (inr r.2, log_events (Print <$> r.1) w).
Proof. unfold printing, bind. by rewrite emit_all_run. Qed.

Lemma prints_are_no_work (lines : list string) :
  forallb (fun e => negb (is_work e)) (Print <$> lines) = true.
Proof. induction lines; simpl; auto. Qed.

(** What [verify_api_key] does on a non-empty header value. *)
Lemma verify_api_key_present (k : string) w :
  k ≠ "" →
  verify_api_key key_manager (Some k) w =
    (if (ApiKeys.validate_key key_manager (Some k)).2
     then inr k
     else inl (HTTPException 401 "Invalid or expired API key."),
     log_events (Print <$> (ApiKeys.validate_key key_manager (Some k)).1) w).
Proof.
  intros Hk. destruct k as [|a k]; [done|].
  unfold verify_api_key, bind. rewrite printing_run.
  by destruct (ApiKeys.validate_key key_manager (Some (String a k))).2.
Qed.

Lemma verify_api_key_missing (x_api_key : option string) w :
  x_api_key = None ∨ x_api_key = Some "" →
  verify_api_key key_manager x_api_key w =
    (inl (HTTPException 401
            "API key required. Please provide X-API-Key header."), w).
Proof. by intros [-> | ->]. Qed.

(** C5. [verify_api_key] raises 401 with the "API key required" message
    when the header is absent or empty, 401 with the "Invalid or expired"
    message when the header is present and [validate_key] rejects it, and
    returns the key itself when [validate_key] accepts it. *)
Theorem verify_api_key_outcomes (x_api_key : option string) w :
  (x_api_key = None ∨ x_api_key = Some "" →
   (verify_api_key key_manager x_api_key w).1 =
     inl (HTTPException 401
            "API key required. Please provide X-API-Key header."))
  ∧ (∀ k, x_api_key = Some k → k ≠ "" →
          (ApiKeys.validate_key key_manager (Some k)).2 = false →
          (verify_api_key key_manager x_api_key w).1 =
            inl (HTTPException 401 "Invalid or expired API key."))
  ∧ (∀ k, x_api_key = Some k →
          (ApiKeys.validate_key key_manager (Some k)).2 = true →
          (verify_api_key key_manager x_api_key w).1 = inr k).
Proof.
  split; [|split].
  - intros Hx. by rewrite verify_api_key_missing.
  - intros k -> Hk Hv. rewrite verify_api_key_present by done. by rewrite Hv.
  - intros k -> Hv.
    assert (k ≠ "") by (intros ->; discriminate).
    rewrite verify_api_key_present by done. by rewrite Hv.
Qed.

(** A request whose key is missing or not valid is answered 401, and
    all it leaves in the world are printed lines. *)
Lemma verify_api_key_rejects (x_api_key : option string) w :
  x_api_key = None ∨ x_api_key = Some ""
  ∨ (∃ k, x_api_key = Some k ∧ k ∉ ApiKeys.valid_keys key_manager) →
  ∃ detail lines,
    verify_api_key key_manager x_api_key w =
      (inl (HTTPException 401 detail), log_events (Print <$> lines) w).
Proof.
  intros [-> | [-> | (k & -> & Hk)]].
  - exists "API key required. Please provide X-API-Key header.", [].
    simpl. by rewrite log_events_nil.
  - exists "API key required. Please provide X-API-Key header.", [].
    simpl. by rewrite log_events_nil.
  - destruct (decide (k = "")) as [-> | Hne].
    + exists "API key required. Please provide X-API-Key header.", [].
      simpl. by rewrite log_events_nil.
    + exists "Invalid or expired API key.",
        (ApiKeys.validate_key key_manager (Some k)).1.
      rewrite verify_api_key_present by done.
      destruct (ApiKeys.validate_key key_manager (Some k)).2 eqn:Hv; [|done].
      apply validate_key_verdict in Hv as [_ Hin]. done.
Qed.

(** C8. When the [X-API-Key] header is absent, empty, or not in the
    valid set, both analysis endpoints answer 401 and the request has
    caused no decoding or analysis work: the analyzer is in the state it
    was in, and the only events added are printed lines. *)
Theorem authentication_precedes_work (x_api_key : option string)
    (file : UploadFile) (request : gmap string json) w :
  x_api_key = None ∨ x_api_key = Some ""
  ∨ (∃ k, x_api_key = Some k ∧ k ∉ ApiKeys.valid_keys key_manager) →
  (∃ detail new,
      (post_analyze_frame key_manager x_api_key file w).1 =
        inl (HTTPException 401 detail)
      ∧ (post_analyze_frame key_manager x_api_key file w).2 = log_events new w
      ∧ forallb (fun e => negb (is_work e)) new = true)
  ∧ (∃ detail new,
        (post_analyze_base64 key_manager x_api_key request w).1 =
          inl (HTTPException 401 detail)
        ∧ (post_analyze_base64 key_manager x_api_key request w).2 =
            log_events new w
        ∧ forallb (fun e => negb (is_work e)) new = true).
Proof.
  intros Hx.
  destruct (verify_api_key_rejects x_api_key w Hx) as (detail & lines & Hv).
  split; exists detail, (Print <$> lines);
    unfold post_analyze_frame, post_analyze_base64, bind; rewrite Hv; simpl;
    auto using prints_are_no_work.
Qed.

(** *** The response builder *)

Lemma build_response_run (result : AnalysisResult) w :
  ∃ resp, build_response result w = (inr resp, w).
Proof. unfold build_response, bind, time_time, ret. eauto. Qed.

Lemma rounded_metric_reported (result : AnalysisResult) (name : string)
    (ndigits : nat) :
  rounded_metric (default ∅ (res_metrics result)) name ndigits =
    (fun v => PyFloat.round v ndigits) <$> reported_metric result name.
Proof.
  unfold rounded_metric, metrics_get, reported_metric.
  destruct (res_metrics result) as [m|]; simpl.
  - destruct (m !! name) as [[v|]|]; done.
  - by rewrite lookup_empty.
Qed.

(** Both endpoints answer a frame the analyzer has processed with what
    the shared statements build from its result. *)
Lemma analyze_frame_builds (file : UploadFile) (key : string) w
    (result : AnalysisResult) w' :
  analyzed_upload file w result w' →
  analyze_frame file key w = build_response result w'.
Proof.
  intros (fr & w1 & Hdec & Hrun).
  unfold analyze_frame, try_except, bind, ret. rewrite Hdec, Hrun.
  by destruct (build_response_run result w') as [resp ->].
Qed.

Lemma analyze_base64_frame_builds (request : gmap string json) (key : string)
    w (result : AnalysisResult) w' :
  analyzed_base64 request w result w' →
  analyze_base64_frame request key w = build_response result w'.
Proof.
  intros (image & fr & w1 & Hreq & Htruthy & Hdec & Hrun).
  unfold analyze_base64_frame, try_except, bind. rewrite Hreq. simpl.
  rewrite Htruthy. simpl. rewrite Hdec, Hrun.
  by destruct (build_response_run result w') as [resp ->].
Qed.

(** C6. The statements that build the response never fail, on any
    analyzer result: they return a response and leave the world as it
    was. A metric the analyzer did not report is [None] in the response,
    and only such a metric is; a reported metric is rounded, attention
    and shoulder tilt to 1 decimal, head movement and hand activity to 4,
    and the frame confidence to 3. Rounded to [n] decimals means: the
    response holds the float nearest to the decimal with [n] digits
    after the point that is nearest to the exact value reported, the
    even last digit at a tie; infinities and NaN stay. Both endpoints
    return exactly this response for a frame the analyzer has
    processed. *)
Theorem response_builder_total_null_for_absent (result : AnalysisResult) w :
  (∃ resp,
      build_response result w = (inr resp, w)
      ∧ attention resp =
          (fun v => PyFloat.round v 1)
            <$> reported_metric result "attention_percent"
      ∧ head_movement resp =
          (fun v => PyFloat.round v 4)
            <$> reported_metric result "head_movement_normalized"
      ∧ shoulder_tilt resp =
          (fun v => PyFloat.round v 1)
            <$> reported_metric result "shoulder_tilt_deg"
      ∧ hand_activity resp =
          (fun v => PyFloat.round v 4)
            <$> reported_metric result "hand_activity_normalized"
      ∧ frame_confidence resp =
          PyFloat.round (default PyFloat.zero (res_frame_confidence result)) 3
      ∧ (attention resp = None
         ↔ reported_metric result "attention_percent" = None)
      ∧ (head_movement resp = None
         ↔ reported_metric result "head_movement_normalized" = None)
      ∧ (shoulder_tilt resp = None
         ↔ reported_metric result "shoulder_tilt_deg" = None)
      ∧ (hand_activity resp = None
         ↔ reported_metric result "hand_activity_normalized" = None)
      ∧ (∀ v, reported_metric result "attention_percent" = Some v →
              ∃ r, attention resp = Some r ∧ PyFloat.rounded_to 1 v r)
      ∧ (∀ v, reported_metric result "head_movement_normalized" = Some v →
              ∃ r, head_movement resp = Some r ∧ PyFloat.rounded_to 4 v r)
      ∧ (∀ v, reported_metric result "shoulder_tilt_deg" = Some v →
              ∃ r, shoulder_tilt resp = Some r ∧ PyFloat.rounded_to 1 v r)
      ∧ (∀ v, reported_metric result "hand_activity_normalized" = Some v →
              ∃ r, hand_activity resp = Some r ∧ PyFloat.rounded_to 4 v r)
      ∧ PyFloat.rounded_to 3
          (default PyFloat.zero (res_frame_confidence result))
          (frame_confidence resp))
  ∧ (∀ file key w0,
        analyzed_upload file w0 result w →
        analyze_frame file key w0 = build_response result w)
  ∧ (∀ request key w0,
        analyzed_base64 request w0 result w →
        analyze_base64_frame request key w0 = build_response result w).
Proof.
  split; [|split].
  - eexists. split; [reflexivity|]. cbn [attention head_movement shoulder_tilt
      hand_activity frame_confidence].
    rewrite !rounded_metric_reported.
    repeat match goal with |- _ ∧ _ => split end;
      try done; try apply fmap_None; try apply round_rounded_to;
      intros v ->; (eexists; split; [reflexivity|apply round_rounded_to]).
  - intros. by apply analyze_frame_builds.
  - intros. by apply analyze_base64_frame_builds.
Qed.

(** C2. For a frame the analyzer has processed, on either endpoint, the
    response says "PASS" exactly when the frame confidence of the
    analyzer's result (0.0 when absent) is [>= 0.3], and "FAIL" exactly
    when it is not; a confidence of exactly 0.3 passes. On finite
    floats [>= 0.3] is the order of exact values: the confidence is at
    least [5404319552844595 / 2^54], the float that the literal [0.3]
    denotes. *)
Theorem confidence_status_threshold (result : AnalysisResult) w' :
  (∀ file key w,
      analyzed_upload file w result w' →
      ∃ resp,
        analyze_frame file key w = (inr resp, w')
        ∧ (confidence_status resp = "PASS"
           ↔ PyFloat.ge (default PyFloat.zero (res_frame_confidence result))
               confidence_threshold = true)
        ∧ (confidence_status resp = "FAIL"
           ↔ PyFloat.ge (default PyFloat.zero (res_frame_confidence result))
               confidence_threshold = false))
  ∧ (∀ request key w,
        analyzed_base64 request w result w' →
        ∃ resp,
          analyze_base64_frame request key w = (inr resp, w')
          ∧ (confidence_status resp = "PASS"
             ↔ PyFloat.ge (default PyFloat.zero (res_frame_confidence result))
                 confidence_threshold = true)
          ∧ (confidence_status resp = "FAIL"
             ↔ PyFloat.ge (default PyFloat.zero (res_frame_confidence result))
                 confidence_threshold = false))
  ∧ PyFloat.ge confidence_threshold confidence_threshold = true
  ∧ (∀ c : spec_float,
        PyFloat.valid c = true → PyFloat.is_finite c = true →
        PyFloat.ge c confidence_threshold = true
        ↔ (5404319552844595 * 2 ^ 1020 <= PyFloat.units c)%Z).
Proof.
  assert (∃ resp,
    build_response result w' = (inr resp, w')
    ∧ (confidence_status resp = "PASS"
       ↔ PyFloat.ge (default PyFloat.zero (res_frame_confidence result))
           confidence_threshold = true)
    ∧ (confidence_status resp = "FAIL"
       ↔ PyFloat.ge (default PyFloat.zero (res_frame_confidence result))
           confidence_threshold = false)) as Hbuild.
  { eexists. split; [reflexivity|]. cbn [confidence_status].
    destruct (PyFloat.ge _ confidence_threshold); split; split; done. }
  split; [|split; [|split]].
  - intros file key w Hrun. by rewrite (analyze_frame_builds _ _ _ _ _ Hrun).
  - intros request key w Hrun.
    by rewrite (analyze_base64_frame_builds _ _ _ _ _ Hrun).
  - vm_compute. reflexivity.
  - intros c Hvalid Hfinite.
    rewrite ge_units by (done || (vm_compute; reflexivity)).
    replace (PyFloat.units confidence_threshold)
      with (5404319552844595 * 2 ^ 1020)%Z by (vm_compute; reflexivity).
    done.
Qed.

(** C9. When the analyzer's result has no frame confidence, the response
    of either endpoint carries the frame confidence 0.0 and the status
    "FAIL". *)
Theorem absent_confidence_is_zero_and_fails (result : AnalysisResult) w' :
  res_frame_confidence result = None →
  (∀ file key w,
      analyzed_upload file w result w' →
      ∃ resp,
        analyze_frame file key w = (inr resp, w')
        ∧ frame_confidence resp = PyFloat.zero
        ∧ confidence_status resp = "FAIL")
  ∧ (∀ request key w,
        analyzed_base64 request w result w' →
        ∃ resp,
          analyze_base64_frame request key w = (inr resp, w')
          ∧ frame_confidence resp = PyFloat.zero
          ∧ confidence_status resp = "FAIL").
Proof.
  intros Hnone.
  assert (∃ resp,
    build_response result w' = (inr resp, w')
    ∧ frame_confidence resp = PyFloat.zero
    ∧ confidence_status resp = "FAIL") as Hbuild.
  { eexists. split; [reflexivity|].
    cbn [frame_confidence confidence_status]. rewrite Hnone. simpl.
    split; reflexivity. }
  split.
  - intros file key w Hrun. by rewrite (analyze_frame_builds _ _ _ _ _ Hrun).
  - intros request key w Hrun.
    by rewrite (analyze_base64_frame_builds _ _ _ _ _ Hrun).
Qed.

(** *** The missing image field *)

Lemma analyze_base64_frame_missing (request : gmap string json)
    (key : string) w :
  request !! "image" = None →
  analyze_base64_frame request key w =
    (inl (HTTPException 400 "Missing 'image' field in request"), w).
Proof.
  intros Hreq. unfold analyze_base64_frame, try_except. by rewrite Hreq.
Qed.

(** C7. A request to the base64 endpoint with an accepted key and a body
    without an ['image'] field is answered 400 with the detail "Missing
    'image' field in request"; the analyzer stays in its state and the
    request adds only the lines the key check printed, so neither a
    decoder nor the analyzer has been called. *)
Theorem missing_image_field_bad_request (k : string)
    (request : gmap string json) w :
  (ApiKeys.validate_key key_manager (Some k)).2 = true →
  request !! "image" = None →
  (post_analyze_base64 key_manager (Some k) request w).1 =
    inl (HTTPException 400 "Missing 'image' field in request")
  ∧ status_of (post_analyze_base64 key_manager (Some k) request w).1 = 400%Z
  ∧ ∃ new,
      (post_analyze_base64 key_manager (Some k) request w).2 = log_events new w
      ∧ forallb (fun e => negb (is_work e)) new = true.
Proof.
  intros Hv Hreq.
  assert (k ≠ "") by (intros ->; discriminate).
  unfold post_analyze_base64, bind.
  rewrite verify_api_key_present by done. rewrite Hv.
  rewrite analyze_base64_frame_missing by done. simpl.
  repeat split. eexists. split; [reflexivity|]. apply prints_are_no_work.
Qed.

(** *** Malformed images *)

Lemma decode_image_open_failure (image_data : list byte) (msg : string) w :
  Image_open image_data = inl msg →
  decode_image image_data w =
    (inl (HTTPException 400 ("Invalid image format: " +:+ msg)),
     log_events [DecodeImage image_data] w).
Proof.
  intros Hopen. unfold decode_image, bind, emit, try_except.
  rewrite Hopen. done.
Qed.

(** A block that re-raises every exception as [wrap e] returns a value
    or raises some [wrap e]. *)
Lemma try_except_wrap_outcome {A} (m : M A) (wrap : exn → exn) w :
  (∃ a, (try_except m (fun e => raise (wrap e)) w).1 = inr a)
  ∨ (∃ e, (try_except m (fun e => raise (wrap e)) w).1 = inl (wrap e)).
Proof.
  unfold try_except, raise. destruct (m w) as [[e|a] w1]; simpl; eauto.
Qed.

(** [decode_image] either returns a frame or raises 400 "Invalid image
    format: ...". *)
Lemma decode_image_outcome (image_data : list byte) w :
  (∃ frame_bgr, (decode_image image_data w).1 = inr frame_bgr)
  ∨ (∃ msg, (decode_image image_data w).1 =
              inl (HTTPException 400 ("Invalid image format: " +:+ msg))).
Proof.
  unfold decode_image. unfold bind at 1, emit.
  match goal with
  | |- context [try_except ?m ?h ?w0] =>
      destruct (try_except_wrap_outcome m
                  (fun e => HTTPException 400
                              ("Invalid image format: " +:+ str_exn e)) w0)
        as [[a Ha] | [e He]]
  end.
  - left. eauto.
  - right. eauto.
Qed.

(** The upload endpoint turns the 400 of [decode_image] into a 500. *)
Lemma analyze_frame_open_failure (file : UploadFile) (key msg : string) w :
  Image_open (upload_content file) = inl msg →
  analyze_frame file key w =
    (inl (HTTPException 500
            ("Error processing frame: "
             +:+ http_exception_str 400 ("Invalid image format: " +:+ msg))),
     log_events [DecodeImage (upload_content file)] w).
Proof.
  intros Hopen. unfold analyze_frame, try_except, bind, ret.
  by rewrite (decode_image_open_failure _ _ _ Hopen).
Qed.

(** The upload endpoint answers 200 or 500, never 400. *)
Lemma analyze_frame_status (file : UploadFile) (key : string) w :
  status_of (analyze_frame file key w).1 = 200%Z
  ∨ status_of (analyze_frame file key w).1 = 500%Z.
Proof.
  unfold analyze_frame.
  match goal with
  | |- context [try_except ?m ?h ?w0] =>
      destruct (try_except_wrap_outcome m
                  (fun e => HTTPException 500
                              ("Error processing frame: " +:+ str_exn e)) w0)
        as [[a Ha] | [e He]]
  end.
  - left. by rewrite Ha.
  - right. by rewrite He.
Qed.

(** [decode_base64_image] on a string whose selected field decodes to
    [image_data]: the outcome of [decode_image], an exception worded
    anew. *)
Lemma decode_base64_image_decoded (text field : string)
    (image_data : list byte) w :
  selected_field text = Some field →
  Base64.b64decode field = inr image_data →
  decode_base64_image (JStr text) w =
    match decode_image image_data
            (log_events [DecodeBase64Image (JStr text); B64Decode field] w) with
    | (inr frame_bgr, w') => (inr frame_bgr, w')
    | (inl e, w') =>
        (inl (HTTPException 400 ("Invalid base64 image: " +:+ str_exn e)), w')
    end.
Proof.
  unfold selected_field. intros Hsel Hb64.
  unfold decode_base64_image. unfold bind at 1, emit. unfold try_except.
  unfold bind at 1.
  destruct (PyStr.contains "," text).
  - rewrite Hsel. unfold ret at 1. unfold bind at 1, emit.
    unfold bind at 1. rewrite Hb64. unfold lift, ret at 1.
    by rewrite log_events_app.
  - injection Hsel as ->. unfold ret at 1. unfold bind at 1, emit.
    unfold bind at 1. rewrite Hb64. unfold lift, ret at 1.
    by rewrite log_events_app.
Qed.

(** The base64 endpoint lets the 400 through, worded by
    [decode_base64_image]. *)
Lemma analyze_base64_frame_open_failure (request : gmap string json)
    (text field key msg : string) (image_data : list byte) w :
  request !! "image" = Some (JStr text) →
  text ≠ "" →
  selected_field text = Some field →
  Base64.b64decode field = inr image_data →
  Image_open image_data = inl msg →
  analyze_base64_frame request key w =
    (inl (HTTPException 400
            ("Invalid base64 image: "
             +:+ http_exception_str 400 ("Invalid image format: " +:+ msg))),
     log_events [DecodeBase64Image (JStr text); B64Decode field;
                 DecodeImage image_data] w).
Proof.
  intros Hreq Hne Hsel Hb64 Hopen.
  assert (PyStr.truthy text = true) as Htruthy by by apply truthy_true.
  unfold analyze_base64_frame, try_except. rewrite Hreq. simpl.
  rewrite Htruthy. simpl. unfold bind at 1.
  rewrite (decode_base64_image_decoded _ _ _ _ Hsel Hb64).
  rewrite (decode_image_open_failure _ _ _ Hopen). simpl.
  by rewrite log_events_app.
Qed.

(** *** The data-URL prefix *)

Lemma contains_data_url (prefix rest : string) :
  PyStr.contains "," (prefix +:+ String "," rest) = true.
Proof.
  induction prefix as [|c prefix IH]; simpl; [done|].
  by destruct (decide (c = ","%char)).
Qed.

Lemma split_nonempty (sep : ascii) (s : string) : PyStr.split sep s ≠ [].
Proof.
  destruct s as [|c s]; simpl; [done|].
  destruct (decide (c = sep)); [done|]. by destruct (PyStr.split sep s).
Qed.

(** After a prefix without comma, the field that [split(',')[1]] selects
    is the text between the first comma and the next one. *)
Lemma split_second_field (prefix rest : string) :
  PyStr.contains "," prefix = false →
  PyStr.split "," (prefix +:+ String "," rest) !! 1%nat =
    head (PyStr.split "," rest).
Proof.
  induction prefix as [|c prefix IH]; simpl.
  - intros _. by destruct (PyStr.split _ _).
  - destruct (decide (c = ","%char)); [done|]. intros Hp.
    specialize (IH Hp).
    destruct (PyStr.split "," (prefix +:+ String "," rest)) as [|f fs] eqn:Hs.
    + by destruct (split_nonempty "," (prefix +:+ String "," rest)).
    + exact IH.
Qed.

Lemma split_without_separator (sep : ascii) (s : string) :
  PyStr.contains sep s = false → PyStr.split sep s = [s].
Proof.
  induction s as [|c s IH]; simpl; [done|].
  destruct (decide (c = sep)); [done|]. intros Hs. by rewrite IH.
Qed.

Lemma selected_field_plain (text : string) :
  PyStr.contains "," text = false → selected_field text = Some text.
Proof. unfold selected_field. by intros ->. Qed.

(** With exactly one comma, the selected field is all that follows the
    comma. *)
Lemma selected_field_data_url (prefix rest : string) :
  PyStr.contains "," prefix = false → PyStr.contains "," rest = false →
  selected_field (prefix +:+ String "," rest) = Some rest.
Proof.
  intros Hprefix Hrest. unfold selected_field.
  rewrite contains_data_url, split_second_field by done.
  by rewrite split_without_separator.
Qed.

(** The outcome of [decode_image] depends on the bytes alone, and the
    call adds one event. *)
Lemma decode_image_run (image_data : list byte) w w' :
  (decode_image image_data w).2 = log_events [DecodeImage image_data] w
  ∧ (decode_image image_data w').1 = (decode_image image_data w).1.
Proof.
  unfold decode_image, bind, emit, try_except, lift, ret, raise.
  destruct (Image_open image_data) as [msg|image]; [done|].
  destruct (bool_decide (image_mode image ≠ "RGB")).
  - destruct (image_convert image "RGB") as [msg|image']; [done|].
    destruct (np_array image') as [msg|arr]; [done|].
    by destruct (cvtColor_RGB2BGR arr).
  - destruct (np_array image) as [msg|arr]; [done|].
    by destruct (cvtColor_RGB2BGR arr).
Qed.

(** X15. Round trip. When [decode_image] returns a frame for some bytes,
    [decode_base64_image] returns the same frame for their base64
    encoding, bare or after a data-URL prefix that has no comma. *)
Theorem base64_roundtrip_same_frame (prefix : string) (image_data : list byte)
    (frame_bgr : ndarray) w w' :
  PyStr.contains "," prefix = false →
  (decode_image image_data w).1 = inr frame_bgr →
  (decode_base64_image (JStr (Base64.b64encode image_data)) w').1 =
    inr frame_bgr
  ∧ (decode_base64_image
       (JStr (prefix +:+ String "," (Base64.b64encode image_data))) w').1 =
      inr frame_bgr.
Proof.
  intros Hprefix Hdec.
  destruct (b64encode_plain image_data) as [_ Hcomma].
  split.
  - rewrite (decode_base64_image_decoded _ _ image_data _
               (selected_field_plain _ Hcomma) (b64decode_b64encode _)).
    match goal with
    | |- context [decode_image image_data ?w0] =>
        destruct (decode_image_run image_data w w0) as [_ Hsame];
        destruct (decode_image image_data w0) as [[e|fr] w1]
    end; simpl in *; congruence.
  - rewrite (decode_base64_image_decoded _ _ image_data _
               (selected_field_data_url _ _ Hprefix Hcomma)
               (b64decode_b64encode _)).
    match goal with
    | |- context [decode_image image_data ?w0] =>
        destruct (decode_image_run image_data w w0) as [_ Hsame];
        destruct (decode_image image_data w0) as [[e|fr] w1]
    end; simpl in *; congruence.
Qed.

(** C1. Bytes that Pillow does not recognise make [decode_image] raise
    400 "Invalid image format: ...". The upload endpoint catches that
    exception with every other and answers 500; the base64 endpoint lets
    it through as a 400. *)
Theorem malformed_upload_answered_500 (file : UploadFile) (key msg : string) w :
  Image_open (upload_content file) = inl msg →
  (decode_image (upload_content file) w).1 =
    inl (HTTPException 400 ("Invalid image format: " +:+ msg))
  ∧ (analyze_frame file key w).1 =
      inl (HTTPException 500
             ("Error processing frame: "
              +:+ http_exception_str 400 ("Invalid image format: " +:+ msg)))
  ∧ status_of (analyze_frame file key w).1 = 500%Z
  ∧ (∀ (request : gmap string json) (text field : string),
        request !! "image" = Some (JStr text) →
        text ≠ "" →
        selected_field text = Some field →
        Base64.b64decode field = inr (upload_content file) →
        status_of (analyze_base64_frame request key w).1 = 400%Z).
Proof.
  intros Hopen. split; [|split; [|split]].
  - by rewrite (decode_image_open_failure _ _ _ Hopen).
  - by rewrite (analyze_frame_open_failure _ _ _ _ Hopen).
  - by rewrite (analyze_frame_open_failure _ _ _ _ Hopen).
  - intros request text field Hreq Hne Hsel Hb64.
    by rewrite (analyze_base64_frame_open_failure _ _ _ key _ _ w
                  Hreq Hne Hsel Hb64 Hopen).
Qed.

Lemma split_head (sep : ascii) (field rest : string) :
  PyStr.contains sep field = false →
  head (PyStr.split sep (field +:+ String sep rest)) = Some field.
Proof.
  induction field as [|c field IH].
  - intros _. rewrite append_empty. cbn [PyStr.split].
    by rewrite decide_True by done.
  - cbn [PyStr.contains]. destruct (decide (c = sep)) as [|Hc]; [done|].
    intros Hfield. specialize (IH Hfield).
    rewrite append_cons. cbn [PyStr.split]. rewrite decide_False by done.
    destruct (PyStr.split sep (field +:+ String sep rest)) as [|f fs]; [done|].
    by injection IH as ->.
Qed.

(** The events of [decode_base64_image] on a string: the call, the text
    handed to the base64 decoder, and the call of [decode_image] when
    the text decodes. *)
Lemma decode_base64_image_events (text field : string) w :
  selected_field text = Some field →
  ∃ more,
    (decode_base64_image (JStr text) w).2 =
      log_events ([DecodeBase64Image (JStr text); B64Decode field] ++ more) w
    ∧ (more = [] ∨ ∃ image_data, more = [DecodeImage image_data]).
Proof.
  intros Hsel. destruct (Base64.b64decode field) as [msg|image_data] eqn:Hb64.
  - exists []. split; [|by left].
    unfold selected_field in Hsel.
    unfold decode_base64_image. unfold bind at 1, emit. unfold try_except.
    unfold bind at 1.
    destruct (PyStr.contains "," text).
    + rewrite Hsel. unfold ret at 1. unfold bind at 1, emit.
      unfold bind at 1. rewrite Hb64. simpl. by rewrite log_events_app.
    + injection Hsel as ->. unfold ret at 1. unfold bind at 1, emit.
      unfold bind at 1. rewrite Hb64. simpl. by rewrite log_events_app.
  - exists [DecodeImage image_data]. split; [|eauto].
    rewrite (decode_base64_image_decoded _ _ _ _ Hsel Hb64).
    match goal with
    | |- context [decode_image image_data ?w0] =>
        destruct (decode_image_run image_data w0 w0) as [Hw _];
        destruct (decode_image image_data w0) as [[e|fr] w1]
    end; simpl in *; subst w1; by rewrite log_events_app.
Qed.

(** C3. When commas follow the first one, the text handed to the base64
    decoder is the field between the first comma and the second, and not
    the whole remainder after the first comma. *)
Theorem text_after_second_comma_dropped (prefix field rest : string) w :
  PyStr.contains "," prefix = false →
  PyStr.contains "," field = false →
  selected_field (prefix +:+ String "," (field +:+ String "," rest)) =
    Some field
  ∧ field ≠ field +:+ String "," rest
  ∧ ∃ more,
      (decode_base64_image
         (JStr (prefix +:+ String "," (field +:+ String "," rest))) w).2 =
        log_events
          ([DecodeBase64Image
              (JStr (prefix +:+ String "," (field +:+ String "," rest)));
            B64Decode field] ++ more) w
      ∧ (more = [] ∨ ∃ image_data, more = [DecodeImage image_data]).
Proof.
  intros Hprefix Hfield.
  assert (selected_field (prefix +:+ String "," (field +:+ String "," rest)) =
            Some field) as Hsel.
  { unfold selected_field.
    rewrite contains_data_url, split_second_field by done.
    by apply split_head. }
  split; [done|]. split.
  - intros Heq. rewrite Heq, contains_data_url in Hfield. done.
  - by apply decode_base64_image_events.
Qed.

End GatewayFacts.

(** ** Runs of the sample deployment *)

Section SampleRuns.

#[local] Existing Instance Sample.image_library.
#[local] Existing Instance Sample.runtime.

Lemma sample_analyzed_upload (result : AnalysisResult) :
  analyzed_upload Sample.upload (Sample.fresh_world (inr result)) result
    (Sample.world_after_upload result).
Proof. eexists _, _. split; reflexivity. Qed.

Lemma sample_analyzed_base64 (result : AnalysisResult) :
  analyzed_base64 Sample.request (Sample.fresh_world (inr result)) result
    (Sample.world_after_base64 result).
Proof.
  eexists _, _, _. split; [reflexivity|]. split; [reflexivity|].
  split; reflexivity.
Qed.

(** The scenario of the specification for C5: [def456] is a fallback
    key, [xyz] is no key, and a request may come without the header. *)
Lemma verify_api_key_outcomes_witness :
  (verify_api_key Sample.key_manager (Some "def456")
     (Sample.fresh_world (inr Sample.bare_result))).1 = inr "def456"
  ∧ (verify_api_key Sample.key_manager (Some "xyz")
       (Sample.fresh_world (inr Sample.bare_result))).1 =
      inl (HTTPException 401 "Invalid or expired API key.")
  ∧ (verify_api_key Sample.key_manager None
       (Sample.fresh_world (inr Sample.bare_result))).1 =
      inl (HTTPException 401
             "API key required. Please provide X-API-Key header.").
Proof.
  split; [|split].
  - apply (proj2 (proj2 (verify_api_key_outcomes Sample.key_manager
                           (Some "def456") _)) "def456");
      [reflexivity | vm_compute; reflexivity].
  - apply (proj1 (proj2 (verify_api_key_outcomes Sample.key_manager
                           (Some "xyz") _)) "xyz");
      [reflexivity | discriminate | vm_compute; reflexivity].
  - apply (proj1 (verify_api_key_outcomes Sample.key_manager None _)).
    by left.
Defined.

(** C8 on the sample deployment: the key [xyz] is not valid. *)
Lemma authentication_precedes_work_witness :
  ∃ detail new,
    (post_analyze_frame Sample.key_manager (Some "xyz") Sample.upload
       (Sample.fresh_world (inr Sample.bare_result))).1 =
      inl (HTTPException 401 detail)
    ∧ (post_analyze_frame Sample.key_manager (Some "xyz") Sample.upload
         (Sample.fresh_world (inr Sample.bare_result))).2 =
        log_events new (Sample.fresh_world (inr Sample.bare_result))
    ∧ forallb (fun e => negb (is_work e)) new = true.
Proof.
  apply (authentication_precedes_work Sample.key_manager (Some "xyz")
           Sample.upload Sample.request).
  right. right. exists "xyz". split; [reflexivity|].
  vm_compute. intros Hin. by repeat (inversion Hin as [|? ? ? Hin']; clear Hin;
    rename Hin' into Hin).
Defined.

(** C7 on the sample deployment: the body [{}] with the key [def456]. *)
Lemma missing_image_field_bad_request_witness :
  (post_analyze_base64 Sample.key_manager (Some "def456") ∅
     (Sample.fresh_world (inr Sample.bare_result))).1 =
    inl (HTTPException 400 "Missing 'image' field in request").
Proof.
  apply (missing_image_field_bad_request Sample.key_manager "def456" ∅).
  - vm_compute. reflexivity.
  - apply lookup_empty.
Defined.

(** C2 on the sample deployment: a confidence of 0.25 fails on both
    endpoints. *)
Lemma confidence_status_threshold_witness :
  (∃ resp,
      analyze_frame Sample.upload "abc123"
        (Sample.fresh_world (inr Sample.low_confidence_result)) =
        (inr resp, Sample.world_after_upload Sample.low_confidence_result)
      ∧ confidence_status resp = "FAIL")
  ∧ (∃ resp,
        analyze_base64_frame Sample.request "abc123"
          (Sample.fresh_world (inr Sample.low_confidence_result)) =
          (inr resp, Sample.world_after_base64 Sample.low_confidence_result)
        ∧ confidence_status resp = "FAIL").
Proof.
  split.
  - destruct (proj1 (confidence_status_threshold Sample.low_confidence_result
                       (Sample.world_after_upload Sample.low_confidence_result))
                Sample.upload "abc123" _
                (sample_analyzed_upload Sample.low_confidence_result))
      as (resp & Hrun & _ & Hfail).
    exists resp. split; [exact Hrun|]. apply Hfail. vm_compute. reflexivity.
  - destruct (proj1 (proj2 (confidence_status_threshold
                              Sample.low_confidence_result
                              (Sample.world_after_base64
                                 Sample.low_confidence_result)))
                Sample.request "abc123" _
                (sample_analyzed_base64 Sample.low_confidence_result))
      as (resp & Hrun & _ & Hfail).
    exists resp. split; [exact Hrun|]. apply Hfail. vm_compute. reflexivity.
Defined.

(** C9 on the sample deployment: a result without frame confidence. *)
Lemma absent_confidence_is_zero_and_fails_witness :
  res_frame_confidence Sample.bare_result = None
  ∧ (∃ resp,
        analyze_frame Sample.upload "abc123"
          (Sample.fresh_world (inr Sample.bare_result)) =
          (inr resp, Sample.world_after_upload Sample.bare_result)
        ∧ frame_confidence resp = PyFloat.zero
        ∧ confidence_status resp = "FAIL")
  ∧ (∃ resp,
        analyze_base64_frame Sample.request "abc123"
          (Sample.fresh_world (inr Sample.bare_result)) =
          (inr resp, Sample.world_after_base64 Sample.bare_result)
        ∧ frame_confidence resp = PyFloat.zero
        ∧ confidence_status resp = "FAIL").
Proof.
  split; [reflexivity|]. split.
  - apply (proj1 (absent_confidence_is_zero_and_fails Sample.bare_result
                    (Sample.world_after_upload Sample.bare_result) eq_refl)
             Sample.upload "abc123" _ (sample_analyzed_upload _)).
  - apply (proj2 (absent_confidence_is_zero_and_fails Sample.bare_result
                    (Sample.world_after_base64 Sample.bare_result) eq_refl)
             Sample.request "abc123" _ (sample_analyzed_base64 _)).
Defined.

(** The scenario of the specification: an analyzer result with
    confidence 0.25, an empty metrics mapping and the timestamp 1000.0. *)
Lemma sample_low_confidence_response :
  analyze_frame Sample.upload "abc123"
    (Sample.fresh_world (inr Sample.low_confidence_result)) =
    (inr {| frame := 0;
            frame_confidence := PyFloat.of_ratio false 25 100;
            confidence_status := "FAIL";
            attention := None;
            head_movement := None;
            shoulder_tilt := None;
            hand_activity := None;
            hands_detected := 0;
            timestamp := PyFloat.of_ratio false 1000 1;
            success := true;
            warnings := [] |},
     Sample.world_after_upload Sample.low_confidence_result).
Proof.
  rewrite (analyze_frame_builds _ _ _ _ _ (sample_analyzed_upload _)).
  vm_compute. reflexivity.
Qed.

(** C6 on the sample deployment, for a result that reports attention
    87.456, head movement 0.123456, shoulder tilt -3.14159, a hand
    activity of [None] and the confidence 0.87654: the response carries
    87.5, 0.1235, -3.1, [None] and 0.877, and these are the reported
    values rounded to 1, 4, 1 and 3 decimals. *)
Lemma response_builder_total_null_for_absent_witness :
  analyze_frame Sample.upload "abc123"
    (Sample.fresh_world (inr Sample.full_result)) =
    (inr {| frame := 12;
            frame_confidence := PyFloat.of_ratio false 877 1000;
            confidence_status := "PASS";
            attention := Some (PyFloat.of_ratio false 875 10);
            head_movement := Some (PyFloat.of_ratio false 1235 10000);
            shoulder_tilt := Some (PyFloat.of_ratio true 31 10);
            hand_activity := None;
            hands_detected := 2;
            timestamp := PyFloat.of_ratio false 1000 1;
            success := true;
            warnings := ["low light"] |},
     Sample.world_after_upload Sample.full_result)
  ∧ PyFloat.rounded_to 1 (PyFloat.of_ratio false 87456 1000)
      (PyFloat.of_ratio false 875 10)
  ∧ PyFloat.rounded_to 4 (PyFloat.of_ratio false 123456 1000000)
      (PyFloat.of_ratio false 1235 10000)
  ∧ PyFloat.rounded_to 1 (PyFloat.of_ratio true 314159 100000)
      (PyFloat.of_ratio true 31 10)
  ∧ PyFloat.rounded_to 3 (PyFloat.of_ratio false 87654 100000)
      (PyFloat.of_ratio false 877 1000).
Proof.
  destruct (response_builder_total_null_for_absent Sample.full_result
              (Sample.world_after_upload Sample.full_result))
    as [(resp & Hbuild & Ha & Hm & Ht & Hh & Hc & _ & _ & _ & _
         & Hra & Hrm & Hrt & _ & Hrc) [Hupload _]].
  rewrite (Hupload Sample.upload "abc123" _ (sample_analyzed_upload _)).
  rewrite Hbuild.
  assert (build_response Sample.full_result
            (Sample.world_after_upload Sample.full_result) =
          (inr {| frame := 12;
                  frame_confidence := PyFloat.of_ratio false 877 1000;
                  confidence_status := "PASS";
                  attention := Some (PyFloat.of_ratio false 875 10);
                  head_movement := Some (PyFloat.of_ratio false 1235 10000);
                  shoulder_tilt := Some (PyFloat.of_ratio true 31 10);
                  hand_activity := None;
                  hands_detected := 2;
                  timestamp := PyFloat.of_ratio false 1000 1;
                  success := true;
                  warnings := ["low light"] |},
           Sample.world_after_upload Sample.full_result)) as Hvalue
    by (vm_compute; reflexivity).
  rewrite Hvalue in Hbuild. injection Hbuild as <-.
  split; [reflexivity|].
  destruct (Hra (PyFloat.of_ratio false 87456 1000)
              ltac:(vm_compute; reflexivity)) as (ra & [= <-] & Hra').
  destruct (Hrm (PyFloat.of_ratio false 123456 1000000)
              ltac:(vm_compute; reflexivity)) as (rm & [= <-] & Hrm').
  destruct (Hrt (PyFloat.of_ratio true 314159 100000)
              ltac:(vm_compute; reflexivity)) as (rt & [= <-] & Hrt').
  split; [exact Hra'|]. split; [exact Hrm'|]. split; [exact Hrt'|].
  exact Hrc.
Defined.

(** C1 on the sample deployment: the bytes of [not an image], uploaded
    and sent as base64. *)
Lemma malformed_upload_answered_500_witness :
  (analyze_frame
     {| upload_filename := "frame.png"; upload_content := Sample.not_an_image |}
     "abc123" (Sample.fresh_world (inr Sample.bare_result))).1 =
    inl (HTTPException 500
           "Error processing frame: 400: Invalid image format: cannot identify image file")
  ∧ status_of
      (analyze_base64_frame
         {[ "image" := JStr (Base64.b64encode Sample.not_an_image) ]}
         "abc123" (Sample.fresh_world (inr Sample.bare_result))).1 = 400%Z.
Proof.
  assert (Image_open Sample.not_an_image = inl "cannot identify image file")
    as Hopen by (vm_compute; reflexivity).
  destruct (malformed_upload_answered_500
              {| upload_filename := "frame.png";
                 upload_content := Sample.not_an_image |}
              "abc123" "cannot identify image file"
              (Sample.fresh_world (inr Sample.bare_result)) Hopen)
    as (_ & Hupload & _ & Hbase64).
  split; [exact Hupload|].
  apply (Hbase64 _ (Base64.b64encode Sample.not_an_image)
           (Base64.b64encode Sample.not_an_image)).
  - vm_compute. reflexivity.
  - vm_compute. discriminate.
  - vm_compute. reflexivity.
  - vm_compute. reflexivity.
Defined.

(** The same requests through the endpoints, with an accepted key. *)
Lemma sample_malformed_image_replies :
  (post_analyze_frame Sample.key_manager (Some "abc123")
     {| upload_filename := "frame.png"; upload_content := Sample.not_an_image |}
     (Sample.fresh_world (inr Sample.bare_result))).1 =
    inl (HTTPException 500
           "Error processing frame: 400: Invalid image format: cannot identify image file")
  ∧ (post_analyze_base64 Sample.key_manager (Some "abc123")
       {[ "image" := JStr (Base64.b64encode Sample.not_an_image) ]}
       (Sample.fresh_world (inr Sample.bare_result))).1 =
      inl (HTTPException 400
             "Invalid base64 image: 400: Invalid image format: cannot identify image file").
Proof. split; vm_compute; reflexivity. Qed.

(** C3 on the string [data:image/png;base64,QUJD,REVG]: the decoder is
    handed [QUJD]; it reads [QUJD] as the bytes [ABC] and would read the
    remainder [QUJD,REVG] as [ABCDEF]. *)
Lemma text_after_second_comma_dropped_witness :
  selected_field "data:image/png;base64,QUJD,REVG" = Some "QUJD"
  ∧ "QUJD" ≠ "QUJD,REVG"
  ∧ Base64.b64decode "QUJD" = inr ["A"; "B"; "C"]%byte
  ∧ Base64.b64decode "QUJD,REVG" = inr ["A"; "B"; "C"; "D"; "E"; "F"]%byte.
Proof.
  destruct (text_after_second_comma_dropped "data:image/png;base64" "QUJD"
              "REVG" (Sample.fresh_world (inr Sample.bare_result))
              eq_refl eq_refl) as (Hsel & Hne & _).
  split; [exact Hsel|]. split; [exact Hne|]. split; vm_compute; reflexivity.
Defined.

(** The events of that call. *)
Lemma sample_data_url_events :
  w_events
    (decode_base64_image (JStr "data:image/png;base64,QUJD,REVG")
       (Sample.fresh_world (inr Sample.bare_result))).2 =
    [DecodeBase64Image (JStr "data:image/png;base64,QUJD,REVG");
     B64Decode "QUJD";
     DecodeImage ["A"; "B"; "C"]%byte].
Proof. vm_compute. reflexivity. Qed.

(** The status is decided on the confidence as the analyzer gave it,
    the response carries the confidence rounded to 3 decimals: a
    confidence of 0.2996 is answered with [frame_confidence] 0.3 and the
    status "FAIL". *)
Lemma status_decided_before_rounding :
  ∃ resp,
    analyze_frame Sample.upload "abc123"
      (Sample.fresh_world (inr Sample.borderline_result)) =
      (inr resp, Sample.world_after_upload Sample.borderline_result)
    ∧ frame_confidence resp = confidence_threshold
    ∧ confidence_status resp = "FAIL".
Proof. eexists. split; [vm_compute; reflexivity|]. split; reflexivity. Qed.

End SampleRuns.

(** ** More on the key manager *)

Section KeyStoreMore.

Import ApiKeys.

Lemma init_valid_keys_not_empty_string (environ : gmap string string)
    (k : string) :
  k ∈ valid_keys (init environ).2 → k ≠ "".
Proof.
  rewrite elem_of_init_valid_keys. intros [[_ Hk] | Hf]; [done|].
  by apply init_fallback_keys_stripped in Hf as [_ Hk].
Qed.

Lemma has_valid_keys_accepts (environ : gmap string string) :
  has_valid_keys (init environ).2 = true
  ↔ ∃ candidate, (validate_key (init environ).2 (Some candidate)).2 = true.
Proof.
  unfold has_valid_keys. rewrite Nat.ltb_lt. split.
  - intros Hlen.
    destruct (valid_keys (init environ).2) as [|k ks] eqn:Hkeys;
      [simpl in Hlen; lia|].
    assert (k ∈ valid_keys (init environ).2) as Hin
      by (rewrite Hkeys; apply list_elem_of_here).
    exists k. apply validate_key_verdict. split; [|done].
    by eapply init_valid_keys_not_empty_string.
  - intros (c & Hc). apply validate_key_verdict in Hc as [_ Hin].
    destruct (valid_keys (init environ).2); [by apply elem_of_nil in Hin|].
    simpl. lia.
Qed.

(** X1. [has_valid_keys] answers whether any candidate at all can be
    accepted: it is true exactly when [validate_key] accepts some
    candidate, and then [get_key_count] is not zero. *)
Theorem has_valid_keys_iff_some_key_accepted (environ : gmap string string) :
  (has_valid_keys (init environ).2 = true
   ↔ ∃ candidate, (validate_key (init environ).2 (Some candidate)).2 = true)
  ∧ (get_key_count (init environ).2 = 0%nat
     ↔ ∀ candidate, (validate_key (init environ).2 candidate).2 = false).
Proof.
  split; [apply has_valid_keys_accepts|].
  pose proof (has_valid_keys_accepts environ) as Hacc.
  unfold has_valid_keys, get_key_count in *. rewrite Nat.ltb_lt in Hacc.
  split.
  - intros Hzero [c|]; [|done]. apply not_true_is_false. intros Hc.
    assert (0 < length (valid_keys (init environ).2))%nat
      by (apply Hacc; eauto).
    lia.
  - intros Hnone.
    destruct (length (valid_keys (init environ).2)) eqn:Hlen; [done|].
    destruct (proj1 Hacc ltac:(lia)) as [c Hc]. by rewrite Hnone in Hc.
Qed.

Lemma split_fields_without_separator (sep : ascii) (s field : string) :
  field ∈ PyStr.split sep s → PyStr.contains sep field = false.
Proof.
  revert field. induction s as [|c s IH]; intros field; cbn [PyStr.split].
  - rewrite list_elem_of_singleton. by intros ->.
  - destruct (decide (c = sep)) as [->|Hc].
    + rewrite elem_of_cons. intros [-> | Hin]; [done|]. by apply IH.
    + destruct (PyStr.split sep s) as [|f fs] eqn:Hs.
      * rewrite list_elem_of_singleton. intros ->. cbn [PyStr.contains].
        by rewrite decide_False.
      * rewrite elem_of_cons. intros [-> | Hin].
        -- cbn [PyStr.contains]. rewrite decide_False by done.
           apply IH, list_elem_of_here.
        -- apply IH. by apply list_elem_of_further.
Qed.

Lemma contains_lstrip (sep : ascii) (s : string) :
  PyStr.contains sep (PyStr.lstrip s) = true → PyStr.contains sep s = true.
Proof.
  induction s as [|c s IH]; [done|]. cbn [PyStr.lstrip].
  destruct (PyStr.isspace c); [|done]. intros Hs. cbn [PyStr.contains].
  destruct (decide (c = sep)); [done|]. by apply IH.
Qed.

Lemma contains_rstrip (sep : ascii) (s : string) :
  PyStr.contains sep (PyStr.rstrip s) = true → PyStr.contains sep s = true.
Proof.
  induction s as [|c s IH]; [done|]. cbn [PyStr.rstrip PyStr.contains].
  destruct (decide (c = sep)) as [|Hc]; [done|].
  destruct (PyStr.rstrip s) as [|c' r].
  - destruct (PyStr.isspace c); cbn [PyStr.contains];
      rewrite ?decide_False by done; done.
  - cbn [PyStr.contains]. rewrite decide_False by done. exact IH.
Qed.

Lemma init_fallback_keys_without_comma (environ : gmap string string)
    (k : string) :
  k ∈ fallback_keys (init environ).2 → PyStr.contains "," k = false.
Proof.
  rewrite elem_of_init_fallback_keys. intros (field & Hin & _ & ->).
  apply split_fields_without_separator in Hin.
  apply not_true_is_false. intros Hc.
  apply contains_lstrip, contains_rstrip in Hc. congruence.
Qed.

(** X2. A key with a comma in it can only be the primary key: the fallback
    configuration is cut at every comma, so no fallback key has one. *)
Theorem key_with_comma_only_as_primary (environ : gmap string string)
    (candidate : string) :
  PyStr.contains "," candidate = true →
  (validate_key (init environ).2 (Some candidate)).2 = true
  ↔ environ !! "VIDEO_ANALYZER_API_KEY" = Some candidate.
Proof.
  intros Hcomma.
  assert (candidate ≠ "") as Hne by (intros ->; discriminate).
  rewrite validate_key_verdict, elem_of_init_valid_keys. split.
  - intros [_ [[Hp _] | Hf]]; [done|].
    apply init_fallback_keys_without_comma in Hf. congruence.
  - intros Hp. split; [done|]. by left.
Qed.

Lemma key_with_comma_only_as_primary_witness :
  (validate_key
     (init (<["VIDEO_ANALYZER_API_KEY" := "a,b"]> ∅)).2 (Some "a,b")).2 = true
  ∧ (validate_key
       (init (<["FALLBACK_API_KEYS" := "a,b"]> ∅)).2 (Some "a,b")).2 = false.
Proof.
  split.
  - apply (key_with_comma_only_as_primary
             (<["VIDEO_ANALYZER_API_KEY" := "a,b"]> ∅) "a,b"); reflexivity.
  - apply not_true_is_false. intros Hv.
    apply (key_with_comma_only_as_primary
             (<["FALLBACK_API_KEYS" := "a,b"]> ∅) "a,b") in Hv;
      [|reflexivity].
    vm_compute in Hv. discriminate.
Defined.

Lemma size_list_to_set_le (l : list string) :
  (size (list_to_set l : gset string) ≤ length l)%nat.
Proof.
  induction l as [|x l IH].
  - rewrite list_to_set_nil, size_empty. done.
  - rewrite list_to_set_cons, size_union_alt, size_singleton. cbn [length].
    assert (list_to_set l ∖ {[x]} ⊆ (list_to_set l : gset string)) as Hsub.
    { intros y. rewrite elem_of_difference. tauto. }
    apply subseteq_size in Hsub. lia.
Qed.

(** X3. The effective valid set is the set of the entries of [valid_keys],
    and [get_key_count] counts the entries, repeated ones too: it is
    never less than the number of distinct keys that are accepted. *)
Theorem key_count_bounds_distinct_keys (environ : gmap string string) :
  effective_valid_set (init environ).2 =
    list_to_set (valid_keys (init environ).2)
  ∧ (size (effective_valid_set (init environ).2)
     ≤ get_key_count (init environ).2)%nat.
Proof.
  assert (effective_valid_set (init environ).2 =
            list_to_set (valid_keys (init environ).2)) as Heq.
  { apply set_eq. intros k. rewrite elem_of_list_to_set.
    rewrite elem_of_init_valid_keys. unfold effective_valid_set.
    rewrite elem_of_difference, elem_of_union, elem_of_list_to_set,
      not_elem_of_singleton.
    cbn [init snd primary_key].
    destruct (environ !! "VIDEO_ANALYZER_API_KEY") as [p|].
    - rewrite elem_of_singleton. split.
      + intros [[-> | Hf] Hne]; [by left|by right].
      + intros [[[= ->] Hne] | Hf]; [by split; [left|]|].
        split; [by right|].
        by apply (init_fallback_keys_stripped environ) in Hf as [_ ?].
    - rewrite elem_of_empty. split.
      + intros [[[] | Hf] Hne]. by right.
      + intros [[? _] | Hf]; [done|]. split; [by right|].
        by apply (init_fallback_keys_stripped environ) in Hf as [_ ?]. }
  split; [done|]. rewrite Heq. apply size_list_to_set_le.
Qed.

(** X4. The manager is created by the first call of [get_key_manager] and
    from the environment of that call; every later call returns that
    manager whatever the environment has become, and prints nothing. *)
Theorem get_key_manager_initialises_once (first later : gmap string string) :
  ∃ created,
    get_key_manager first None = ((init first).1, created, Some created)
    ∧ created = (init first).2
    ∧ get_key_manager later (get_key_manager first None).2 =
        ([], created, Some created).
Proof.
  exists (init first).2. unfold get_key_manager.
  destruct (init first) as [printed created] eqn:Hinit. done.
Qed.

Lemma slice_to_whole (n : nat) (s : string) :
  (String.length s ≤ n)%nat → PyStr.slice_to n s = s.
Proof.
  revert n. induction s as [|c s IH]; intros [|n] Hlen; simpl in *;
    try done; try lia.
  rewrite IH by lia. done.
Qed.

(** X5. Every validation of a non-empty candidate, whatever its verdict,
    prints the first 20 characters of the primary key when one is set;
    a primary key of at most 20 characters is printed whole. *)
Theorem validation_prints_primary_key_prefix (environ : gmap string string)
    (primary candidate : string) :
  environ !! "VIDEO_ANALYZER_API_KEY" = Some primary →
  primary ≠ "" → candidate ≠ "" →
  ("[API Key] First valid key: " +:+ PyStr.slice_to 20 primary +:+ "...")
    ∈ (validate_key (init environ).2 (Some candidate)).1
  ∧ ((String.length primary ≤ 20)%nat →
     ("[API Key] First valid key: " +:+ primary +:+ "...")
       ∈ (validate_key (init environ).2 (Some candidate)).1).
Proof.
  intros Hp Hprimary Hcandidate.
  assert (("[API Key] First valid key: " +:+ PyStr.slice_to 20 primary +:+ "...")
            ∈ (validate_key (init environ).2 (Some candidate)).1) as Hin.
  { destruct candidate as [|a candidate]; [done|].
    cbn [validate_key fst init snd valid_keys]. rewrite Hp.
    destruct primary as [|b primary]; [done|]. cbn [PyStr.truthy].
    cbn [app]. set_solver. }
  split; [done|]. intros Hlen. by rewrite slice_to_whole in Hin.
Qed.

Lemma validation_prints_primary_key_prefix_witness :
  "[API Key] First valid key: abc123..."
    ∈ (validate_key Sample.key_manager (Some "xyz")).1.
Proof.
  apply (validation_prints_primary_key_prefix Sample.environ "abc123" "xyz");
    [reflexivity | discriminate | discriminate | vm_compute; lia].
Defined.

(** X18. A candidate is compared as it was presented: one with
    leading or trailing whitespace is accepted only if the primary key
    is that very string, for no fallback key has such whitespace. *)
Theorem padded_candidate_only_as_primary (environ : gmap string string)
    (candidate : string) :
  PyStr.strip candidate ≠ candidate →
  (validate_key (init environ).2 (Some candidate)).2 = true
  ↔ environ !! "VIDEO_ANALYZER_API_KEY" = Some candidate.
Proof.
  intros Hpad.
  assert (candidate ≠ "") as Hne by (intros ->; by apply Hpad).
  rewrite validate_key_verdict, elem_of_init_valid_keys. split.
  - intros [_ [[Hp _] | Hf]]; [done|].
    by apply init_fallback_keys_stripped in Hf as [Hs _].
  - intros Hp. split; [done|]. by left.
Qed.

Lemma padded_candidate_only_as_primary_witness :
  (validate_key Sample.key_manager (Some "def456 ")).2 = false.
Proof.
  apply not_true_is_false. intros Hv.
  apply (padded_candidate_only_as_primary Sample.environ "def456 ") in Hv;
    [|vm_compute; discriminate].
  vm_compute in Hv. discriminate.
Defined.

Lemma split_join (sep : ascii) (parts : list string) :
  parts ≠ [] →
  Forall (fun part => PyStr.contains sep part = false) parts →
  PyStr.split sep (PyStr.join sep parts) = parts.
Proof.
  induction parts as [|part rest IH]; [done|]. intros _ Hparts.
  apply Forall_cons in Hparts as [Hpart Hrest].
  destruct rest as [|next rest].
  - by apply split_without_separator.
  - change (PyStr.join sep (part :: next :: rest))
      with (part +:+ String sep (PyStr.join sep (next :: rest))).
    specialize (IH ltac:(done) Hrest). revert IH.
    generalize (PyStr.join sep (next :: rest)). intros tail IH.
    clear Hrest. induction part as [|c part IHp].
    + rewrite append_empty. cbn [PyStr.split]. rewrite decide_True by done.
      by rewrite IH.
    + cbn [PyStr.contains] in Hpart.
      destruct (decide (c = sep)) as [|Hc]; [done|].
      rewrite append_cons. cbn [PyStr.split]. rewrite decide_False by done.
      by rewrite (IHp Hpart).
Qed.

(** X17. Configuration round trip: keys that are not empty, have no
    comma and no surrounding whitespace, joined with commas into
    [FALLBACK_API_KEYS], come back as the fallback keys, in the same
    order and with repetitions kept. *)
Theorem joined_fallback_keys_round_trip (environ : gmap string string)
    (keys : list string) :
  Forall (fun k => k ≠ "" ∧ PyStr.contains "," k = false ∧ PyStr.strip k = k)
    keys →
  fallback_keys
    (init (<["FALLBACK_API_KEYS" := PyStr.join "," keys]> environ)).2 = keys.
Proof.
  intros Hkeys. cbn [init snd fallback_keys].
  rewrite lookup_insert_eq. cbn [default from_option id].
  destruct keys as [|key keys]; [done|].
  rewrite split_join; [|done|].
  - induction Hkeys as [|k ks (Hne & _ & Hstrip) _ IH]; [done|].
    cbn [List.filter]. rewrite Hstrip, (proj2 (truthy_true k) Hne).
    rewrite fmap_cons, Hstrip. f_equal. exact IH.
  - eapply Forall_impl; [exact Hkeys|]. by intros k (_ & ? & _).
Qed.

Lemma joined_fallback_keys_round_trip_witness :
  fallback_keys (init (<["FALLBACK_API_KEYS" := "def456,ghi789,def456"]> ∅)).2 =
    ["def456"; "ghi789"; "def456"].
Proof.
  apply (joined_fallback_keys_round_trip ∅ ["def456"; "ghi789"; "def456"]).
  repeat constructor; discriminate.
Defined.

(** X6. The report of [GET /api-key/status]: [keys_configured] and the
    message say whether any candidate can be accepted; [primary_key_set]
    says only that [VIDEO_ANALYZER_API_KEY] is present in the
    environment, and is true also for an empty value, which is not an
    accepted key. *)
Theorem api_key_status_report (environ : gmap string string) :
  (keys_configured (get_api_key_status (init environ).2) = true
   ↔ ∃ candidate, (validate_key (init environ).2 (Some candidate)).2 = true)
  ∧ (message (get_api_key_status (init environ).2) =
       "API keys are loaded from environment variables"
     ↔ keys_configured (get_api_key_status (init environ).2) = true)
  ∧ (primary_key_set (get_api_key_status (init environ).2) = true
     ↔ is_Some (environ !! "VIDEO_ANALYZER_API_KEY"))
  ∧ (∀ p, environ !! "VIDEO_ANALYZER_API_KEY" = Some p →
          ((validate_key (init environ).2 (Some p)).2 = true ↔ p ≠ "")).
Proof.
  split; [apply has_valid_keys_accepts|]. split; [|split].
  - cbn [get_api_key_status message keys_configured].
    by destruct (has_valid_keys (init environ).2).
  - cbn [get_api_key_status primary_key_set get_primary_key init snd
           primary_key].
    destruct (environ !! "VIDEO_ANALYZER_API_KEY"); split;
      (done || eauto || by intros []).
  - intros p Hp. rewrite validate_key_verdict, elem_of_init_valid_keys.
    split; [by intros [? _]|]. intros Hne. split; [done|]. by left.
Qed.

Lemma api_key_status_report_witness :
  primary_key_set
    (get_api_key_status (init (<["VIDEO_ANALYZER_API_KEY" := ""]> ∅)).2) = true
  ∧ keys_configured
      (get_api_key_status (init (<["VIDEO_ANALYZER_API_KEY" := ""]> ∅)).2) =
      false.
Proof.
  split.
  - apply (api_key_status_report (<["VIDEO_ANALYZER_API_KEY" := ""]> ∅)).
    by exists "".
  - apply not_true_is_false. intros Hk.
    apply (api_key_status_report (<["VIDEO_ANALYZER_API_KEY" := ""]> ∅)) in Hk
      as [c Hc].
    apply validate_key_verdict in Hc as [_ Hin]. vm_compute in Hin.
    by apply elem_of_nil in Hin.
Defined.

End KeyStoreMore.

(** ** More on the gateway *)

Section GatewayMore.
Context `{IL : ImageLibrary} `{BA : BehaviorAnalyzer} `{RT : Runtime}.
Variable key_manager : ApiKeys.ProductionAPIKeyManager.

Implicit Types (w : world) (es : list event).

(** *** How the decoders and the analyzer run *)

Lemma split_has_second_field (sep : ascii) (s : string) :
  PyStr.contains sep s = true → ∃ field, PyStr.split sep s !! 1%nat = Some field.
Proof.
  induction s as [|c s IH]; [done|]. cbn [PyStr.contains PyStr.split].
  destruct (decide (c = sep)).
  - intros _. destruct (PyStr.split sep s) as [|f fs] eqn:Hs.
    + by destruct (split_nonempty sep s).
    + by exists f.
  - intros Hs. destruct (IH Hs) as [field Hfield].
    destruct (PyStr.split sep s) as [|f fs]; [done|]. by exists field.
Qed.

(** [split(',')[1]] never raises where the code applies it. *)
Lemma selected_field_is_some (text : string) :
  ∃ field, selected_field text = Some field.
Proof.
  unfold selected_field. destruct (PyStr.contains "," text) eqn:Hc; [|eauto].
  by apply split_has_second_field.
Qed.

Lemma decode_base64_image_undecodable (text field msg : string) w :
  selected_field text = Some field →
  Base64.b64decode field = inl msg →
  decode_base64_image (JStr text) w =
    (inl (HTTPException 400 ("Invalid base64 image: " +:+ msg)),
     log_events [DecodeBase64Image (JStr text); B64Decode field] w).
Proof.
  unfold selected_field. intros Hsel Hb64.
  unfold decode_base64_image. unfold bind at 1, emit. unfold try_except.
  unfold bind at 1.
  destruct (PyStr.contains "," text).
  - rewrite Hsel. unfold ret at 1. unfold bind at 1, emit.
    unfold bind at 1. rewrite Hb64. simpl. by rewrite log_events_app.
  - injection Hsel as ->. unfold ret at 1. unfold bind at 1, emit.
    unfold bind at 1. rewrite Hb64. simpl. by rewrite log_events_app.
Qed.

Lemma decode_base64_image_not_a_string (image : json) w :
  (∀ text, image ≠ JStr text) →
  decode_base64_image image w =
    (inl (HTTPException 400
            ("Invalid base64 image: " +:+ non_str_image_error image)),
     log_events [DecodeBase64Image image] w).
Proof. intros Hns. destruct image; try done. by destruct (Hns s). Qed.

(** The first component of [decode_image] as a function of the bytes
    alone, read off at any world. *)
Lemma decode_image_at (image_data : list byte) w w0 :
  decode_image image_data w =
    ((decode_image image_data w0).1, log_events [DecodeImage image_data] w).
Proof.
  destruct (decode_image_run image_data w w0) as [Hw _].
  destruct (decode_image_run image_data w0 w) as [_ Hr].
  rewrite <- Hr, <- Hw. by destruct (decode_image image_data w).
Qed.

(** [decode_base64_image] on a string, by what the selected field
    decodes to. *)
Lemma decode_base64_image_string (text : string) w :
  ∃ field,
    selected_field text = Some field
    ∧ decode_base64_image (JStr text) w =
        match Base64.b64decode field with
        | inl msg =>
            (inl (HTTPException 400 ("Invalid base64 image: " +:+ msg)),
             log_events [DecodeBase64Image (JStr text); B64Decode field] w)
        | inr image_data =>
            (match (decode_image image_data w).1 with
             | inr frame_bgr => inr frame_bgr
             | inl e =>
                 inl (HTTPException 400
                        ("Invalid base64 image: " +:+ str_exn e))
             end,
             log_events [DecodeBase64Image (JStr text); B64Decode field;
                         DecodeImage image_data] w)
        end.
Proof.
  destruct (selected_field_is_some text) as [field Hsel].
  exists field. split; [done|].
  destruct (Base64.b64decode field) as [msg|image_data] eqn:Hb64.
  - by apply decode_base64_image_undecodable.
  - rewrite (decode_base64_image_decoded _ _ _ _ Hsel Hb64).
    rewrite (decode_image_at image_data _ w), log_events_app.
    by destruct (decode_image image_data w).1.
Qed.

(** The world after [analyzer.process_frame] has answered. *)
Lemma analyzer_process_frame_run (frame_bgr : ndarray) w :
  analyzer_process_frame frame_bgr w =
    (match (process_frame (w_analyzer w) frame_bgr).1 with
     | inl msg => inl (PyError msg)
     | inr result => inr result
     end,
     {| w_analyzer := (process_frame (w_analyzer w) frame_bgr).2;
        w_clock := w_clock w;
        w_events := w_events w ++ [ProcessFrame frame_bgr] |}).
Proof.
  unfold analyzer_process_frame.
  by destruct (process_frame (w_analyzer w) frame_bgr) as [[msg|result] st].
Qed.

(** What the body of the upload endpoint does, by the outcome of
    decoding and of the analyzer. *)
Lemma analyze_frame_cases (file : UploadFile) (key : string) w :
  analyze_frame file key w =
    match (decode_image (upload_content file) w).1 with
    | inl e =>
        (inl (HTTPException 500 ("Error processing frame: " +:+ str_exn e)),
         log_events [DecodeImage (upload_content file)] w)
    | inr frame_bgr =>
        let after :=
          {| w_analyzer := (process_frame (w_analyzer w) frame_bgr).2;
             w_clock := w_clock w;
             w_events := w_events w ++ [DecodeImage (upload_content file);
                                        ProcessFrame frame_bgr] |} in
        match (process_frame (w_analyzer w) frame_bgr).1 with
        | inl msg =>
            (inl (HTTPException 500 ("Error processing frame: " +:+ msg)),
             after)
        | inr result => build_response result after
        end
    end.
Proof.
  unfold analyze_frame, try_except. unfold bind at 1, ret at 1.
  unfold bind at 1.
  rewrite (decode_image_at (upload_content file) w w).
  destruct (decode_image (upload_content file) w).1 as [e|fr]; [done|].
  cbn [fst snd]. unfold bind at 1. rewrite analyzer_process_frame_run.
  cbn [log_events w_analyzer w_clock w_events]. rewrite <- app_assoc.
  cbn [app].
  destruct (process_frame (w_analyzer w) fr).1 as [msg|result]; [done|].
  match goal with
  | |- context [build_response result ?w0] =>
      by destruct (build_response_run result w0) as [resp ->]
  end.
Qed.

(** Closes a goal [∀ f, ProcessFrame f ∉ es] on an explicit list of
    other events. *)
Local Ltac no_process_frame :=
  let f := fresh "f" in
  let Hin := fresh "Hin" in
  intros f Hin;
  repeat (apply elem_of_cons in Hin as [Hin | Hin]; [discriminate|]);
  by apply elem_of_nil in Hin.

(** [decode_base64_image] returns a frame or raises 400 "Invalid base64
    image: ...", and adds events of decoding only. *)
Lemma decode_base64_image_run (image : json) w :
  ∃ es,
    (decode_base64_image image w).2 = log_events es w
    ∧ (∀ f, ProcessFrame f ∉ es)
    ∧ ((∃ frame_bgr, (decode_base64_image image w).1 = inr frame_bgr)
       ∨ (∃ d, (decode_base64_image image w).1 =
                 inl (HTTPException 400 ("Invalid base64 image: " +:+ d)))).
Proof.
  destruct image as [| | | |text| |];
    try (eexists; rewrite decode_base64_image_not_a_string by done;
         split; [reflexivity|]; split; [no_process_frame|right; eauto]).
  destruct (decode_base64_image_string text w) as (field & _ & ->).
  destruct (Base64.b64decode field) as [msg|image_data].
  - eexists. split; [reflexivity|]. split; [no_process_frame|right; eauto].
  - eexists. split; [reflexivity|]. split; [no_process_frame|].
    destruct (decode_image image_data w).1; [right|left]; eauto.
Qed.

(** What the body of the base64 endpoint does: the image is missing or
    falsy; or decoding raises; or the analyzer is called and raises or
    answers. *)
Lemma analyze_base64_frame_cases (request : gmap string json)
    (key : string) w :
  (json_truthy (default JNull (request !! "image")) = false
   ∧ analyze_base64_frame request key w =
       (inl (HTTPException 400 "Missing 'image' field in request"), w))
  ∨ (json_truthy (default JNull (request !! "image")) = true
     ∧ ∃ d es,
         (∀ f, ProcessFrame f ∉ es)
         ∧ decode_base64_image (default JNull (request !! "image")) w =
             (inl (HTTPException 400 ("Invalid base64 image: " +:+ d)),
              log_events es w)
         ∧ analyze_base64_frame request key w =
             (inl (HTTPException 400 ("Invalid base64 image: " +:+ d)),
              log_events es w))
  ∨ (json_truthy (default JNull (request !! "image")) = true
     ∧ ∃ frame_bgr es,
         (∀ f, ProcessFrame f ∉ es)
         ∧ decode_base64_image (default JNull (request !! "image")) w =
             (inr frame_bgr, log_events es w)
         ∧ analyze_base64_frame request key w =
             match (process_frame (w_analyzer w) frame_bgr).1 with
             | inl msg =>
                 (inl (HTTPException 500
                         ("Error processing frame: " +:+ msg)),
                  {| w_analyzer := (process_frame (w_analyzer w) frame_bgr).2;
                     w_clock := w_clock w;
                     w_events := w_events w ++ es ++ [ProcessFrame frame_bgr] |})
             | inr result =>
                 build_response result
                   {| w_analyzer := (process_frame (w_analyzer w) frame_bgr).2;
                      w_clock := w_clock w;
                      w_events :=
                        w_events w ++ es ++ [ProcessFrame frame_bgr] |}
             end).
Proof.
  set (image := default JNull (request !! "image")).
  destruct (json_truthy image) eqn:Htruthy.
  - right.
    destruct (decode_base64_image_run image w)
      as (es & Hw & Hes & [[fr Hr] | [d Hr]]).
    + right. split; [done|]. exists fr, es. split; [done|].
      assert (decode_base64_image image w = (inr fr, log_events es w)) as Hdec
        by (rewrite <- Hr, <- Hw; by destruct (decode_base64_image image w)).
      split; [done|].
      unfold analyze_base64_frame, try_except. fold image. rewrite Htruthy.
      cbn [negb]. unfold bind at 1. rewrite Hdec. unfold bind at 1.
      rewrite analyzer_process_frame_run.
      cbn [log_events w_analyzer w_clock w_events]. rewrite <- app_assoc.
      destruct (process_frame (w_analyzer w) fr).1 as [msg|result]; [done|].
      match goal with
      | |- context [build_response result ?w0] =>
          by destruct (build_response_run result w0) as [resp ->]
      end.
    + left. split; [done|]. exists d, es. split; [done|].
      assert (decode_base64_image image w =
                (inl (HTTPException 400 ("Invalid base64 image: " +:+ d)),
                 log_events es w)) as Hdec
        by (rewrite <- Hr, <- Hw; by destruct (decode_base64_image image w)).
      split; [done|].
      unfold analyze_base64_frame, try_except. fold image. rewrite Htruthy.
      cbn [negb]. unfold bind at 1. by rewrite Hdec.
  - left. split; [done|].
    unfold analyze_base64_frame, try_except. fold image. by rewrite Htruthy.
Qed.

(** *** Replies *)

(** X7. When [analyzer.process_frame] raises, both endpoints answer 500
    with the detail "Error processing frame: " followed by the text of
    the exception. *)
Theorem analyzer_failure_answered_500 (msg : string) :
  (∀ file key w frame_bgr,
      (decode_image (upload_content file) w).1 = inr frame_bgr →
      (process_frame (w_analyzer w) frame_bgr).1 = inl msg →
      (analyze_frame file key w).1 =
        inl (HTTPException 500 ("Error processing frame: " +:+ msg)))
  ∧ (∀ request key w image frame_bgr,
        request !! "image" = Some image →
        json_truthy image = true →
        (decode_base64_image image w).1 = inr frame_bgr →
        (process_frame (w_analyzer w) frame_bgr).1 = inl msg →
        (analyze_base64_frame request key w).1 =
          inl (HTTPException 500 ("Error processing frame: " +:+ msg))).
Proof.
  split.
  - intros file key w fr Hdec Hrun.
    rewrite analyze_frame_cases, Hdec. cbv zeta. by rewrite Hrun.
  - intros request key w image fr Hreq Htruthy Hdec Hrun.
    destruct (analyze_base64_frame_cases request key w)
      as [[Hf _] | [(_ & d & es & _ & Hd & _) | (_ & fr' & es & _ & Hd & ->)]];
      rewrite Hreq in *; cbn [default from_option id] in *.
    + congruence.
    + rewrite Hd in Hdec. discriminate.
    + rewrite Hd in Hdec. injection Hdec as ->. by rewrite Hrun.
Qed.

(** X8. An ['image'] value that Python takes for false (an empty string,
    [null], [false], a zero, an empty list or object) is answered like a
    missing field, and nothing is decoded. *)
Theorem falsy_image_answered_as_missing (request : gmap string json)
    (image : json) (key : string) w :
  request !! "image" = Some image →
  json_truthy image = false →
  analyze_base64_frame request key w =
    (inl (HTTPException 400 "Missing 'image' field in request"), w).
Proof.
  intros Hreq Hfalsy. unfold analyze_base64_frame, try_except.
  rewrite Hreq. cbn [default from_option id]. by rewrite Hfalsy.
Qed.

(** X9. Text that [base64.b64decode] rejects is answered 400 with the
    detail "Invalid base64 image: " followed by the decoder's message;
    [decode_image] and the analyzer are not called. *)
Theorem undecodable_base64_answered_400 (request : gmap string json)
    (text field msg key : string) w :
  request !! "image" = Some (JStr text) →
  text ≠ "" →
  selected_field text = Some field →
  Base64.b64decode field = inl msg →
  analyze_base64_frame request key w =
    (inl (HTTPException 400 ("Invalid base64 image: " +:+ msg)),
     log_events [DecodeBase64Image (JStr text); B64Decode field] w).
Proof.
  intros Hreq Hne Hsel Hb64.
  unfold analyze_base64_frame, try_except. rewrite Hreq.
  cbn [default from_option id json_truthy].
  rewrite (proj2 (truthy_true text) Hne). cbn [negb]. unfold bind at 1.
  by rewrite (decode_base64_image_undecodable _ _ _ _ Hsel Hb64).
Qed.

(** X10. The replies the two bodies can give: the upload endpoint a response
    or 500 "Error processing frame: ..."; the base64 endpoint a
    response, 400 "Missing 'image' field in request", 400 "Invalid
    base64 image: ..." or 500 "Error processing frame: ...". *)
Theorem replies_of_the_endpoints (file : UploadFile)
    (request : gmap string json) (key : string) w :
  ((∃ resp, (analyze_frame file key w).1 = inr resp)
   ∨ (∃ d, (analyze_frame file key w).1 =
             inl (HTTPException 500 ("Error processing frame: " +:+ d))))
  ∧ ((∃ resp, (analyze_base64_frame request key w).1 = inr resp)
     ∨ (analyze_base64_frame request key w).1 =
         inl (HTTPException 400 "Missing 'image' field in request")
     ∨ (∃ d, (analyze_base64_frame request key w).1 =
               inl (HTTPException 400 ("Invalid base64 image: " +:+ d)))
     ∨ (∃ d, (analyze_base64_frame request key w).1 =
               inl (HTTPException 500 ("Error processing frame: " +:+ d)))).
Proof.
  split.
  - rewrite analyze_frame_cases.
    destruct (decode_image (upload_content file) w).1 as [e|fr];
      [right; eauto|].
    cbv zeta. destruct (process_frame (w_analyzer w) fr).1 as [msg|result];
      [right; eauto|].
    left.
    match goal with
    | |- context [build_response result ?w0] =>
        destruct (build_response_run result w0) as [resp ->]
    end. eauto.
  - destruct (analyze_base64_frame_cases request key w)
      as [[_ ->] | [(_ & d & es & _ & _ & ->) | (_ & fr & es & _ & _ & ->)]].
    + right. by left.
    + right. right. left. eauto.
    + destruct (process_frame (w_analyzer w) fr).1 as [msg|result].
      * right. right. right. eauto.
      * left.
        match goal with
        | |- context [build_response result ?w0] =>
            destruct (build_response_run result w0) as [resp ->]
        end. eauto.
Qed.

(** X11. A request whose image cannot be decoded never reaches the analyzer:
    on the upload endpoint the only event is the call of
    [decode_image]; on the base64 endpoint a 400 leaves the analyzer in
    its state and adds no call of it, and a 500 is given only when the
    analyzer was handed a frame and raised. *)
Theorem failed_decoding_leaves_analyzer_alone (file : UploadFile)
    (request : gmap string json) (key : string) w :
  (∀ e, (decode_image (upload_content file) w).1 = inl e →
        (analyze_frame file key w).2 =
          log_events [DecodeImage (upload_content file)] w)
  ∧ (status_of (analyze_base64_frame request key w).1 = 400%Z →
     ∃ es, (analyze_base64_frame request key w).2 = log_events es w
           ∧ ∀ f, ProcessFrame f ∉ es)
  ∧ (status_of (analyze_base64_frame request key w).1 = 500%Z →
     ∃ frame_bgr msg,
       (decode_base64_image (default JNull (request !! "image")) w).1 =
         inr frame_bgr
       ∧ (process_frame (w_analyzer w) frame_bgr).1 = inl msg).
Proof.
  split; [|split].
  - intros e He. rewrite analyze_frame_cases, He. done.
  - destruct (analyze_base64_frame_cases request key w)
      as [[_ ->] | [(_ & d & es & Hes & _ & ->) | (_ & fr & es & _ & _ & ->)]].
    + intros _. exists []. rewrite log_events_nil. split; [done|].
      intros f. apply not_elem_of_nil.
    + intros _. by exists es.
    + destruct (process_frame (w_analyzer w) fr).1 as [msg|result];
        [done|].
      match goal with
      | |- context [build_response result ?w0] =>
          by destruct (build_response_run result w0) as [resp ->]
      end.
  - destruct (analyze_base64_frame_cases request key w)
      as [[_ ->] | [(_ & d & es & _ & _ & ->) | (_ & fr & es & _ & Hd & ->)]];
      try done.
    destruct (process_frame (w_analyzer w) fr).1 as [msg|result] eqn:Hrun.
    + intros _. exists fr, msg. by rewrite Hd.
    + match goal with
      | |- context [build_response result ?w0] =>
          by destruct (build_response_run result w0) as [resp ->]
      end.
Qed.

(** The world a response of the upload endpoint leaves behind. *)
Lemma analyze_frame_success (file : UploadFile) (key : string)
    (resp : FrameAnalysisResponse) w w' :
  analyze_frame file key w = (inr resp, w') →
  ∃ frame_bgr result,
    (decode_image (upload_content file) w).1 = inr frame_bgr
    ∧ process_frame (w_analyzer w) frame_bgr = (inr result, w_analyzer w')
    ∧ w_clock w' = w_clock w
    ∧ w_events w' =
        w_events w ++ [DecodeImage (upload_content file);
                       ProcessFrame frame_bgr]
    ∧ build_response result w' = (inr resp, w').
Proof.
  rewrite analyze_frame_cases.
  destruct (decode_image (upload_content file) w).1 as [e|fr]; [done|].
  cbv zeta.
  destruct (process_frame (w_analyzer w) fr) as [[msg|result] st] eqn:Hrun;
    cbn [fst snd]; [done|].
  intros Hbuild. exists fr, result.
  match type of Hbuild with
  | build_response result ?w0 = _ =>
      destruct (build_response_run result w0) as [resp' Hb];
      rewrite Hb in Hbuild; injection Hbuild as -> <-
  end. done.
Qed.

(** X12. A response is given only after the image has been decoded and the
    analyzer has been called on the decoded frame, once: the events
    added are the calls of the decoders followed by the one call of the
    analyzer, and the analyzer is left in the state of that call. On
    the base64 endpoint the image was then a string whose selected field
    is valid base64. *)
Theorem response_follows_one_analysis (file : UploadFile)
    (request : gmap string json) (key : string)
    (resp : FrameAnalysisResponse) w w' :
  (analyze_frame file key w = (inr resp, w') →
   ∃ frame_bgr result,
     (decode_image (upload_content file) w).1 = inr frame_bgr
     ∧ process_frame (w_analyzer w) frame_bgr = (inr result, w_analyzer w')
     ∧ w_events w' =
         w_events w ++ [DecodeImage (upload_content file);
                        ProcessFrame frame_bgr]
     ∧ build_response result w' = (inr resp, w'))
  ∧ (analyze_base64_frame request key w = (inr resp, w') →
     ∃ text field image_data frame_bgr result,
       request !! "image" = Some (JStr text)
       ∧ selected_field text = Some field
       ∧ Base64.b64decode field = inr image_data
       ∧ (decode_image image_data w).1 = inr frame_bgr
       ∧ process_frame (w_analyzer w) frame_bgr = (inr result, w_analyzer w')
       ∧ w_events w' =
           w_events w ++ [DecodeBase64Image (JStr text); B64Decode field;
                          DecodeImage image_data; ProcessFrame frame_bgr]
       ∧ build_response result w' = (inr resp, w')).
Proof.
  split.
  - intros Hok.
    destruct (analyze_frame_success _ _ _ _ _ Hok)
      as (fr & result & Hdec & Hrun & _ & Hev & Hbuild).
    by exists fr, result.
  - intros Hok.
    destruct (analyze_base64_frame_cases request key w)
      as [[_ Hr] | [(_ & d & es & _ & _ & Hr)
                   | (Htruthy & fr & es & _ & Hd & Hr)]];
      rewrite Hr in Hok; try done. clear Hr.
    destruct (request !! "image") as [image|] eqn:Hreq; [|done].
    cbn [default from_option id] in *.
    assert ((∃ text, image = JStr text) ∨ (∀ text, image ≠ JStr text))
      as [[text ->] | Hns] by (destruct image; eauto; right; done).
    + destruct (decode_base64_image_string text w) as (field & Hsel & Heq).
      rewrite Heq in Hd.
      destruct (Base64.b64decode field) as [msg|image_data] eqn:Hb64;
        [done|].
      injection Hd as Hfr Hw.
      assert (es = [DecodeBase64Image (JStr text); B64Decode field;
                    DecodeImage image_data]) as ->.
      { by apply app_inv_head in Hw. }
      destruct (decode_image image_data w).1 as [e|fr'] eqn:Hdec; [done|].
      injection Hfr as ->.
      destruct (process_frame (w_analyzer w) fr) as [[msg|result] st] eqn:Hrun;
        cbn [fst snd] in Hok; [done|].
      exists text, field, image_data, fr, result.
      match type of Hok with
      | build_response result ?w0 = _ =>
          destruct (build_response_run result w0) as [resp' Hb];
          rewrite Hb in Hok; injection Hok as -> <-
      end. done.
    + rewrite decode_base64_image_not_a_string in Hd by eauto. done.
Qed.

(** *** Independence of the recorded events *)

Lemma same_state_refl w : same_state w w.
Proof. by split. Qed.

Lemma same_state_log es1 es2 w1 w2 :
  same_state w1 w2 → same_state (log_events es1 w1) (log_events es2 w2).
Proof. by intros [? ?]. Qed.

Lemma blind_ret {A} (a : A) : events_blind (ret a).
Proof. by intros w1 w2 Hs. Qed.

Lemma blind_raise {A} (e : exn) : events_blind (raise (A:=A) e).
Proof. by intros w1 w2 Hs. Qed.

Lemma blind_lift {A} (r : string + A) : events_blind (lift r).
Proof. destruct r; [apply blind_raise|apply blind_ret]. Qed.

Lemma blind_emit (e : event) : events_blind (emit e).
Proof. intros w1 w2 Hs. split; [done|]. by apply same_state_log. Qed.

Lemma blind_bind {A B} (m : M A) (k : A → M B) :
  events_blind m → (∀ a, events_blind (k a)) → events_blind (bind m k).
Proof.
  intros Hm Hk w1 w2 Hs. unfold bind.
  destruct (Hm w1 w2 Hs) as [Hr Hs'].
  destruct (m w1) as [[e1|a1] w1'], (m w2) as [[e2|a2] w2']; simpl in *;
    try done.
  - by injection Hr as ->.
  - injection Hr as ->. by apply Hk.
Qed.

Lemma blind_try_except {A} (m : M A) (handler : exn → M A) :
  events_blind m → (∀ e, events_blind (handler e)) →
  events_blind (try_except m handler).
Proof.
  intros Hm Hh w1 w2 Hs. unfold try_except.
  destruct (Hm w1 w2 Hs) as [Hr Hs'].
  destruct (m w1) as [[e1|a1] w1'], (m w2) as [[e2|a2] w2']; simpl in *;
    try done.
  injection Hr as ->. by apply Hh.
Qed.

Lemma blind_emit_all es : events_blind (emit_all es).
Proof.
  induction es as [|e es IH]; [apply blind_ret|].
  apply blind_bind; [apply blind_emit|done].
Qed.

Lemma blind_time_time : events_blind time_time.
Proof. intros w1 w2 [Ha Hc]. unfold time_time. simpl. by rewrite Hc. Qed.

Lemma blind_analyzer_process_frame (frame_bgr : ndarray) :
  events_blind (analyzer_process_frame frame_bgr).
Proof.
  intros w1 w2 [Ha Hc]. rewrite !analyzer_process_frame_run.
  rewrite Ha. split; [done|]. split; [done|exact Hc].
Qed.

Lemma blind_decode_image (image_data : list byte) :
  events_blind (decode_image image_data).
Proof.
  intros w1 w2 Hs. rewrite (decode_image_at image_data w1 w2).
  rewrite (decode_image_at image_data w2 w2). split; [done|].
  by apply same_state_log.
Qed.

Lemma blind_decode_base64_image (image : json) :
  events_blind (decode_base64_image image).
Proof.
  unfold decode_base64_image.
  apply blind_bind; [apply blind_emit|]. intros _.
  apply blind_try_except; [|intros e; apply blind_raise].
  destruct image; try apply blind_raise.
  apply blind_bind.
  - destruct (PyStr.contains "," s); [|apply blind_ret].
    destruct (PyStr.split "," s !! 1%nat); [apply blind_ret|apply blind_raise].
  - intros field. apply blind_bind; [apply blind_emit|]. intros _.
    apply blind_bind; [apply blind_lift|]. intros data.
    apply blind_decode_image.
Qed.

Lemma blind_build_response (result : AnalysisResult) :
  events_blind (build_response result).
Proof.
  unfold build_response. apply blind_bind; [apply blind_time_time|].
  intros now. apply blind_ret.
Qed.

Lemma blind_analyze_frame (file : UploadFile) (key : string) :
  events_blind (analyze_frame file key).
Proof.
  unfold analyze_frame.
  apply blind_try_except; [|intros e; apply blind_raise].
  apply blind_bind; [apply blind_ret|]. intros data.
  apply blind_bind; [apply blind_decode_image|]. intros fr.
  apply blind_bind; [apply blind_analyzer_process_frame|]. intros result.
  apply blind_build_response.
Qed.

Lemma blind_analyze_base64_frame (request : gmap string json) (key : string) :
  events_blind (analyze_base64_frame request key).
Proof.
  unfold analyze_base64_frame.
  apply blind_try_except; [|intros [c d|m]; apply blind_raise].
  destruct (negb (json_truthy (default JNull (request !! "image"))));
    [apply blind_raise|].
  apply blind_bind; [apply blind_decode_base64_image|]. intros fr.
  apply blind_bind; [apply blind_analyzer_process_frame|]. intros result.
  apply blind_build_response.
Qed.

(** The bodies never read the key they are given. *)
Lemma bodies_ignore_the_key (file : UploadFile) (request : gmap string json)
    (k1 k2 : string) :
  analyze_frame file k1 = analyze_frame file k2
  ∧ analyze_base64_frame request k1 = analyze_base64_frame request k2.
Proof. done. Qed.

(** X13. Whichever accepted key a request presents, the reply is the same,
    and so is the state the analyzer is left in: the key decides
    admission and nothing else. *)
Theorem reply_independent_of_accepted_key (k1 k2 : string) (file : UploadFile)
    (request : gmap string json) w :
  (ApiKeys.validate_key key_manager (Some k1)).2 = true →
  (ApiKeys.validate_key key_manager (Some k2)).2 = true →
  ((post_analyze_frame key_manager (Some k1) file w).1 =
     (post_analyze_frame key_manager (Some k2) file w).1
   ∧ same_state (post_analyze_frame key_manager (Some k1) file w).2
       (post_analyze_frame key_manager (Some k2) file w).2)
  ∧ ((post_analyze_base64 key_manager (Some k1) request w).1 =
       (post_analyze_base64 key_manager (Some k2) request w).1
     ∧ same_state (post_analyze_base64 key_manager (Some k1) request w).2
         (post_analyze_base64 key_manager (Some k2) request w).2).
Proof.
  intros Hv1 Hv2.
  assert (k1 ≠ "") as Hk1 by (intros ->; discriminate).
  assert (k2 ≠ "") as Hk2 by (intros ->; discriminate).
  unfold post_analyze_frame, post_analyze_base64, bind.
  rewrite !verify_api_key_present by done. rewrite Hv1, Hv2.
  change (analyze_frame file k2) with (analyze_frame file k1).
  change (analyze_base64_frame request k2)
    with (analyze_base64_frame request k1).
  split.
  - apply blind_analyze_frame, same_state_log, same_state_refl.
  - apply blind_analyze_base64_frame, same_state_log, same_state_refl.
Qed.

(** X14. What stands before the comma of a data URL is never looked at: two
    strings that differ only there decode alike, to the same frame or to
    the same error. *)
Theorem data_url_prefix_is_ignored (prefix1 prefix2 rest : string) w :
  PyStr.contains "," prefix1 = false →
  PyStr.contains "," prefix2 = false →
  (decode_base64_image (JStr (prefix1 +:+ String "," rest)) w).1 =
    (decode_base64_image (JStr (prefix2 +:+ String "," rest)) w).1.
Proof.
  intros Hp1 Hp2.
  destruct (decode_base64_image_string (prefix1 +:+ String "," rest) w)
    as (f1 & Hs1 & ->).
  destruct (decode_base64_image_string (prefix2 +:+ String "," rest) w)
    as (f2 & Hs2 & ->).
  unfold selected_field in Hs1, Hs2.
  rewrite contains_data_url, split_second_field in Hs1 by done.
  rewrite contains_data_url, split_second_field in Hs2 by done.
  assert (f1 = f2) as -> by congruence.
  by destruct (Base64.b64decode f2).
Qed.

(** X16. The two endpoints agree: when the upload endpoint answers a file
    with a response, the base64 endpoint answers the base64 encoding of
    the same bytes, sent as a data URL, with the same response, and
    leaves the analyzer in the same state. *)
Theorem endpoints_agree_on_same_image (file : UploadFile)
    (request : gmap string json) (prefix key key' : string)
    (resp : FrameAnalysisResponse) w w1 :
  PyStr.contains "," prefix = false →
  request !! "image" =
    Some (JStr (prefix +:+ String "," (Base64.b64encode (upload_content file)))) →
  analyze_frame file key w = (inr resp, w1) →
  ∃ w2,
    analyze_base64_frame request key' w = (inr resp, w2)
    ∧ same_state w1 w2.
Proof.
  intros Hprefix Hreq Hupload.
  destruct (analyze_frame_success _ _ _ _ _ Hupload)
    as (fr & result & Hdec & Hrun & Hclock & Hev & Hbuild).
  destruct (b64encode_plain (upload_content file)) as [_ Hcomma].
  set (text := prefix +:+ String "," (Base64.b64encode (upload_content file)))
    in *.
  set (wd := log_events [DecodeBase64Image (JStr text);
                         B64Decode (Base64.b64encode (upload_content file));
                         DecodeImage (upload_content file)] w).
  assert (decode_base64_image (JStr text) w = (inr fr, wd)) as Hdec64.
  { rewrite (decode_base64_image_decoded _ _ _ _
               (selected_field_data_url _ _ Hprefix Hcomma)
               (b64decode_b64encode _)).
    rewrite (decode_image_at _ _ w), Hdec. by rewrite log_events_app. }
  set (w2 := {| w_analyzer := w_analyzer w1; w_clock := w_clock w;
                w_events := w_events wd ++ [ProcessFrame fr] |}).
  assert (analyzer_process_frame fr wd = (inr result, w2)) as Harun.
  { rewrite analyzer_process_frame_run.
    change (w_analyzer wd) with (w_analyzer w). by rewrite Hrun. }
  assert (same_state w1 w2) as Hsame by (by split).
  exists w2. split; [|done].
  rewrite (analyze_base64_frame_builds request key' w result w2).
  - destruct (blind_build_response result w1 w2 Hsame) as [Hr _].
    rewrite Hbuild in Hr. cbn [fst] in Hr.
    destruct (build_response_run result w2) as [r0 Hb0].
    rewrite Hb0 in Hr |- *. cbn [fst] in Hr. by injection Hr as ->.
  - exists (JStr text), fr, wd. split; [done|]. split.
    + unfold text. cbn [json_truthy]. apply truthy_true. by destruct prefix.
    + by split.
Qed.

End GatewayMore.

(** ** More runs of the sample deployment *)

Section SampleRunsMore.

#[local] Existing Instance Sample.image_library.
#[local] Existing Instance Sample.runtime.

(** The frame that [decode_image] returns for [Sample.rgb_image]. *)
Lemma sample_decoded_frame (outcome : string + AnalysisResult) :
  (decode_image Sample.rgb_image (Sample.fresh_world outcome)).1 =
    inr [[(x1e, x14, x0a); (x3c, x32, x28)]]%byte.
Proof. vm_compute. reflexivity. Qed.

(** X7 on the sample deployment: an analyzer that raises. *)
Lemma analyzer_failure_answered_500_witness :
  (analyze_frame Sample.upload "abc123"
     (Sample.fresh_world (inl "model not loaded"))).1 =
    inl (HTTPException 500 "Error processing frame: model not loaded")
  ∧ (analyze_base64_frame Sample.request "abc123"
       (Sample.fresh_world (inl "model not loaded"))).1 =
      inl (HTTPException 500 "Error processing frame: model not loaded").
Proof.
  split.
  - eapply (proj1 (analyzer_failure_answered_500 "model not loaded")).
    + apply sample_decoded_frame.
    + vm_compute. reflexivity.
  - eapply (proj2 (analyzer_failure_answered_500 "model not loaded")
              Sample.request "abc123" _
              (JStr ("data:image/raw;base64,"
                     +:+ Base64.b64encode Sample.rgb_image))
              [[(x1e, x14, x0a); (x3c, x32, x28)]]%byte).
    + vm_compute. reflexivity.
    + vm_compute. reflexivity.
    + vm_compute. reflexivity.
    + vm_compute. reflexivity.
Defined.

(** X8 on the sample deployment: an empty string as image. *)
Lemma falsy_image_answered_as_missing_witness :
  analyze_base64_frame {[ "image" := JStr "" ]} "abc123"
    (Sample.fresh_world (inr Sample.bare_result)) =
    (inl (HTTPException 400 "Missing 'image' field in request"),
     Sample.fresh_world (inr Sample.bare_result)).
Proof.
  apply (falsy_image_answered_as_missing _ (JStr ""));
    vm_compute; reflexivity.
Defined.

(** X9 on the sample deployment: the text [not-base64!!]. *)
Lemma undecodable_base64_answered_400_witness :
  (analyze_base64_frame {[ "image" := JStr "not-base64!!" ]} "abc123"
     (Sample.fresh_world (inr Sample.bare_result))).1 =
    inl (HTTPException 400
           "Invalid base64 image: Invalid base64-encoded string: number of data characters (9) cannot be 1 more than a multiple of 4").
Proof.
  rewrite (undecodable_base64_answered_400 _ "not-base64!!" "not-base64!!"
             "Invalid base64-encoded string: number of data characters (9) cannot be 1 more than a multiple of 4");
    [reflexivity | vm_compute; reflexivity | discriminate
    | vm_compute; reflexivity | vm_compute; reflexivity].
Defined.

(** X11 on the sample deployment: bytes that are no image. *)
Lemma failed_decoding_leaves_analyzer_alone_witness :
  (analyze_frame
     {| upload_filename := "frame.png"; upload_content := Sample.not_an_image |}
     "abc123" (Sample.fresh_world (inr Sample.bare_result))).2 =
    log_events [DecodeImage Sample.not_an_image]
      (Sample.fresh_world (inr Sample.bare_result)).
Proof.
  eapply (proj1 (failed_decoding_leaves_analyzer_alone
                   {| upload_filename := "frame.png";
                      upload_content := Sample.not_an_image |}
                   ∅ "abc123" (Sample.fresh_world (inr Sample.bare_result)))).
  vm_compute. reflexivity.
Defined.

(** The response of the sample upload. *)
Lemma sample_upload_response (result : AnalysisResult) :
  ∃ resp,
    analyze_frame Sample.upload "abc123" (Sample.fresh_world (inr result)) =
      (inr resp, Sample.world_after_upload result).
Proof.
  rewrite (analyze_frame_builds _ _ _ _ _ (sample_analyzed_upload result)).
  apply build_response_run.
Qed.

(** X12 on the sample deployment: the events of an answered upload. *)
Lemma response_follows_one_analysis_witness :
  w_events (Sample.world_after_upload Sample.bare_result) =
    [DecodeImage Sample.rgb_image;
     ProcessFrame [[(x1e, x14, x0a); (x3c, x32, x28)]]%byte].
Proof.
  destruct (sample_upload_response Sample.bare_result) as [resp Hresp].
  destruct (proj1 (response_follows_one_analysis Sample.upload ∅ "abc123"
                     resp _ _) Hresp)
    as (fr & result & Hdec & _ & Hev & _).
  rewrite sample_decoded_frame in Hdec. injection Hdec as <-. exact Hev.
Defined.

(** X13 on the sample deployment: the keys [abc123] and [def456]. *)
Lemma reply_independent_of_accepted_key_witness :
  (post_analyze_frame Sample.key_manager (Some "abc123") Sample.upload
     (Sample.fresh_world (inr Sample.low_confidence_result))).1 =
    (post_analyze_frame Sample.key_manager (Some "def456") Sample.upload
       (Sample.fresh_world (inr Sample.low_confidence_result))).1.
Proof.
  destruct (reply_independent_of_accepted_key Sample.key_manager "abc123"
              "def456" Sample.upload Sample.request
              (Sample.fresh_world (inr Sample.low_confidence_result))
              ltac:(vm_compute; reflexivity) ltac:(vm_compute; reflexivity))
    as [[Hreply _] _].
  exact Hreply.
Defined.

(** X14 on the sample deployment: two unlike prefixes. *)
Lemma data_url_prefix_is_ignored_witness :
  (decode_base64_image
     (JStr ("data:image/png;base64"
            +:+ String "," (Base64.b64encode Sample.rgb_image)))
     (Sample.fresh_world (inr Sample.bare_result))).1 =
    (decode_base64_image
       (JStr ("anything at all"
              +:+ String "," (Base64.b64encode Sample.rgb_image)))
       (Sample.fresh_world (inr Sample.bare_result))).1.
Proof.
  apply data_url_prefix_is_ignored; vm_compute; reflexivity.
Defined.

(** X15 on the sample deployment. *)
Lemma base64_roundtrip_same_frame_witness :
  (decode_base64_image
     (JStr ("data:image/raw;base64"
            +:+ String "," (Base64.b64encode Sample.rgb_image)))
     (Sample.fresh_world (inr Sample.bare_result))).1 =
    inr [[(x1e, x14, x0a); (x3c, x32, x28)]]%byte.
Proof.
  apply (base64_roundtrip_same_frame "data:image/raw;base64" Sample.rgb_image
           _ (Sample.fresh_world (inr Sample.bare_result))
           (Sample.fresh_world (inr Sample.bare_result)));
    [vm_compute; reflexivity | apply sample_decoded_frame].
Defined.

(** X16 on the sample deployment: the upload and its data URL. *)
Lemma endpoints_agree_on_same_image_witness :
  (analyze_base64_frame Sample.request "def456"
     (Sample.fresh_world (inr Sample.low_confidence_result))).1 =
    (analyze_frame Sample.upload "abc123"
       (Sample.fresh_world (inr Sample.low_confidence_result))).1.
Proof.
  destruct (sample_upload_response Sample.low_confidence_result)
    as [resp Hresp].
  destruct (endpoints_agree_on_same_image Sample.upload Sample.request
              "data:image/raw;base64" "abc123" "def456" resp
              (Sample.fresh_world (inr Sample.low_confidence_result))
              (Sample.world_after_upload Sample.low_confidence_result)
              ltac:(vm_compute; reflexivity) ltac:(vm_compute; reflexivity)
              Hresp) as (w2 & Hbase64 & _).
  by rewrite Hbase64, Hresp.
Defined.

End SampleRunsMore.
